(** * pos-server: inventory ledger, billing and cache layer

    A shallow embedding of the inventory routes ([src/routes/inventory.js],
    with the Inventory schema), the bill routes (the router that follows the
    User model in [src/models/User.js]), the barcode read of
    [src/routes/products.js], and the two cache services: [cacheService]
    ([src/unnamed/part_005]) and [billService] ([src/unnamed/part_004]). The
    Mongoose collections are insertion-ordered lists of documents and Redis is
    a finite map from keys to (ttl, snapshot) pairs.

    Conventions of the embedding:
    - a JavaScript value that may be [undefined] is an [option]; [None] is
      [undefined] (a field missing from the request body);
    - stock quantities and thresholds are whole numbers ([Z]): requests that
      carry fractional quantities, and magnitudes from 2^53 on, where a double
      no longer holds every integer, are outside the embedding;
    - the amounts of a bill are the [Number]s of the code: IEEE 754 doubles
      ([float], with the operations of the kernel), [null] or absent; the
      price of a product, which no handler computes with, is a rational;
    - an [ObjectId] is a natural number, allocated from a counter;
    - [lastRestocked], [maxStock], [reorderLevel] and the Mongoose timestamps
      are written but never read by any handler and are left out;
    - [populate('productId')] puts the product in the place of the reference
      in the answer. In a handler that only reads, the product is the stored
      one and the answer is given by the document; in the two handlers that
      go on to write the product, the answer carries the product as it was
      read ([RPopulated]);
    - expiry of cache entries is not modelled: an entry stays until deleted. *)

From Stdlib Require Import QArith Qcanon Floats.
From stdpp Require Import base numbers list strings gmap pretty sorting.

Open Scope string_scope.
Open Scope Z_scope.

(** ** JavaScript truthiness and the [||] idiom *)

Module Js.

Definition truthy_num (v : option Z) : bool :=
  match v with Some n => negb (n =? 0) | None => false end.

Definition truthy_money (v : option Qc) : bool :=
  match v with Some n => negb (bool_decide (n = 0%Qc)) | None => false end.

Definition truthy_str (v : option string) : bool :=
  match v with Some s => negb (bool_decide (s = "")) | None => false end.

Definition truthy_id (v : option nat) : bool :=
  match v with Some _ => true | None => false end.

(** [v || d] where [v] is a number that may be undefined. *)
Definition or_num (v : option Z) (d : Z) : Z :=
  match v with Some n => if n =? 0 then d else n | None => d end.

(** [v || d] where [v] is a string that may be undefined. *)
Definition or_str (v : option string) (d : string) : string :=
  match v with Some s => if bool_decide (s = "") then d else s | None => d end.

(** [v || d] where both sides may be undefined. *)
Definition or_str_opt (v d : option string) : option string :=
  if truthy_str v then v else d.

(** A value in a numeric position of a JSON body or of a stored document:
    absent ([undefined]), [null], or a Number. *)
Inductive Numeric :=
  | Absent
  | Null
  | Num (x : float).

(** [ToNumber]: what an arithmetic operator makes of its operand. *)
Definition ToNumber (v : Numeric) : float :=
  match v with
  | Absent => nan
  | Null => 0%float
  | Num x => x
  end.

(** Truthiness: [undefined], [null], [0], [-0] and [NaN] are falsy. *)
Definition truthy (v : Numeric) : bool :=
  match v with
  | Absent | Null => false
  | Num x => negb (PrimFloat.eqb x 0%float) && negb (PrimFloat.is_nan x)
  end.

(** [a + b] and [a - b] on operands that may be absent or null. *)
Definition add (a : float) (b : Numeric) : float := (a + ToNumber b)%float.
Definition sub (a b : Numeric) : float := (ToNumber a - ToNumber b)%float.

(** The length of an array, or a count kept by [+= 1], as a Number: exact,
    an array having fewer than 2^32 elements. *)
Definition of_count (n : nat) : float :=
  PrimFloat.of_uint63 (Uint63.of_Z (Z.of_nat n)).

(** A default, of a destructuring pattern or of a schema path: it stands in
    for [undefined] only. *)
Definition or_default (v : Numeric) (d : float) : Numeric :=
  match v with
  | Absent => Num d
  | Null | Num _ => v
  end.

(** The rational number a finite double stands for, in lowest terms. *)
Definition exact (x : float) : option Q :=
  match Prim2SF x with
  | S754_zero _ => Some 0%Q
  | S754_finite s m e =>
      Some (Qred ((if s then -1 else 1) * inject_Z (Zpos m) * Qpower 2 e))%Q
  | S754_infinity _ | S754_nan => None
  end.


(** Mongoose's cast of a value to the schema type [Number]: [undefined] and
    [null] pass as they are, [NaN] is refused. *)
Definition castable (v : Numeric) : bool :=
  match v with
  | Num x => negb (PrimFloat.is_nan x)
  | Absent | Null => true
  end.

End Js.

(** ** Documents *)

Definition ObjectId := nat.

Inductive Status := InStock | LowStock | OutOfStock.

Global Instance Status_eq_dec : EqDecision Status.
Proof. solve_decision. Defined.

(** The enum strings of [inventorySchema.status]. *)
Definition status_label (s : Status) : string :=
  match s with
  | InStock => "In Stock"
  | LowStock => "Low Stock"
  | OutOfStock => "Out of Stock"
  end.

(** [models/Inventory.js]. In the schema [quantity] and [minStock] are
    Numbers with no [min] and no integer validator; the documents of the
    embedding hold whole numbers, so no statement below says that a stored
    quantity is whole. *)
Record Inventory := mkInventory {
  inv_id : ObjectId;
  inv_productId : option ObjectId;
  inv_barcode : option string;
  inv_quantity : Z;
  inv_minStock : Z;
  inv_location : string;
  inv_warehouse : string;
  inv_notes : option string;
  inv_status : Status
}.

(** [models/Product.js] *)
Record Product := mkProduct {
  prod_id : ObjectId;
  prod_name : string;
  prod_price : Qc;
  prod_category : string;
  prod_brand : option string;
  prod_barcode : option string;
  prod_stock : option Z;
  prod_active : bool
}.

Definition Product_categories : list string :=
  ["Snacks"; "Beverages"; "Dairy"; "Bakery"; "Frozen"; "Household";
   "Personal Care"; "Others"; "Food"].

Inductive PaymentMethod := Cash | Card | UPI | Check.

Global Instance PaymentMethod_eq_dec : EqDecision PaymentMethod.
Proof. solve_decision. Defined.

Definition PaymentMethod_code (m : PaymentMethod) : nat :=
  match m with Cash => 0%nat | Card => 1%nat | UPI => 2%nat | Check => 3%nat end.

Definition PaymentMethod_of_code (n : nat) : option PaymentMethod :=
  match n with
  | 0%nat => Some Cash | 1%nat => Some Card | 2%nat => Some UPI | 3%nat => Some Check
  | _ => None
  end.

Global Instance PaymentMethod_countable : Countable PaymentMethod.
Proof.
  apply (inj_countable PaymentMethod_code PaymentMethod_of_code).
  by intros [].
Defined.

(** The enum of [billSchema.paymentMethod]: a request string is cast on save. *)
Definition PaymentMethod_parse (s : string) : option PaymentMethod :=
  if bool_decide (s = "Cash") then Some Cash
  else if bool_decide (s = "Card") then Some Card
  else if bool_decide (s = "UPI") then Some UPI
  else if bool_decide (s = "Check") then Some Check
  else None.

Inductive PaymentStatus := Pending | Completed | Failed.

(** An element of [billSchema.items]; the schema requires none of the
    numbers. *)
Record BillLine := mkBillLine {
  line_productId : option ObjectId;
  line_productName : string;
  line_quantity : Js.Numeric;
  line_unitPrice : Js.Numeric;
  line_totalPrice : Js.Numeric
}.

(** [models/Bill.js] ([src/unnamed/part_007]). Of the amounts the schema
    requires none; [taxPercentage] and [discount] have a default, which
    stands in for an absent value only. *)
Record Bill := mkBill {
  bill_id : ObjectId;
  bill_userId : ObjectId;
  bill_billNumber : string;
  bill_items : list BillLine;
  bill_subtotal : Js.Numeric;
  bill_tax : Js.Numeric;
  bill_taxPercentage : Js.Numeric;
  bill_discount : Js.Numeric;
  bill_total : Js.Numeric;
  bill_paymentMethod : PaymentMethod;
  bill_paymentStatus : PaymentStatus;
  bill_amountReceived : Js.Numeric;
  bill_change : Js.Numeric;
  bill_notes : option string
}.

(** The result of [calculateBillStats]. [paymentMethodBreakdown] is a plain
    object keyed by the payment method. *)
Record Breakdown := mkBreakdown {
  bd_count : nat;
  bd_total : float
}.

Record Stats := mkStats {
  totalBills : nat;
  totalRevenue : float;
  totalTax : float;
  totalDiscount : float;
  averageBill : float;
  paymentMethodBreakdown : gmap PaymentMethod Breakdown
}.

(** ** The world: three collections, the id counter and Redis *)

(** What a cache entry holds: the JSON text of a document or of a list. *)
Inductive Snapshot :=
  | SnapProduct (p : Product)
  | SnapInventory (i : Inventory)
  | SnapInventoryList (l : list Inventory)
  | SnapBill (b : Bill)
  | SnapBillList (l : list Bill)
  | SnapStats (s : Stats).

Record World := mkWorld {
  inventories : list Inventory;
  products : list Product;
  bills : list Bill;
  next_oid : ObjectId;
  redis : gmap string (Z * Snapshot)
}.

Definition set_inventories (l : list Inventory) (w : World) : World :=
  mkWorld l (products w) (bills w) (next_oid w) (redis w).
Definition set_products (l : list Product) (w : World) : World :=
  mkWorld (inventories w) l (bills w) (next_oid w) (redis w).
Definition set_bills (l : list Bill) (w : World) : World :=
  mkWorld (inventories w) (products w) l (next_oid w) (redis w).
Definition set_redis (r : gmap string (Z * Snapshot)) (w : World) : World :=
  mkWorld (inventories w) (products w) (bills w) (next_oid w) r.
Definition bump_oid (w : World) : World :=
  mkWorld (inventories w) (products w) (bills w) (S (next_oid w)) (redis w).


(** ** Responses *)

Inductive Error :=
  | ValidationError (path : string)
  | DuplicateKey (field : string)
  | DocumentNotFound
  | ReferenceError (ident : string)
  | TypeError (msg : string)
  | ReplyError (msg : string).

(** One entry of [deductedItems] in the answer of [POST /deduct-bill]. *)
Record DeductedItem := mkDeducted {
  ded_barcode : option string;
  ded_name : option string;
  ded_quantity : Z;
  ded_remainingQuantity : Z;
  ded_status : Status
}.

Inductive ItemErrorKind :=
  | ItemNotFound                                (* 'Inventory item not found' *)
  | Insufficient (available required : Z)       (* 'Insufficient quantity. ...' *)
  | ItemException (e : Error).                  (* itemError.message *)

Record ItemError := mkItemError {
  err_product : option string;
  err_error : ItemErrorKind
}.

Inductive Response :=
  | RError (code : nat) (error : string)
  | RInventory (code : nat) (data : Inventory)
  | RPopulated (code : nat) (data : Inventory) (productId : option Product)
                                 (* data.productId is the populated product *)
  | RRegistered (product : Product) (inventory : Inventory)
  | RInventoryList (data : list Inventory)
  | RCachedInventory (data : Snapshot)          (* { ..., cached: true } *)
  | RProduct (data : Product)
  | RCachedProduct (data : Snapshot)            (* { ..., cached: true } *)
  | RDeducted (deductedItems : list DeductedItem) (errors : option (list ItemError))
  | RBill (data : Bill).

(** ** The handler monad: state, exceptions and early [return res.json(..)]

    [R] is the type of what an early [return] sends; the body of a loop
    iteration or of a service function, which never answers the request,
    runs at [R := Empty_set]. *)

Inductive Outcome (R A : Type) :=
  | Val (a : A)
  | Thrown (e : Error)
  | Sent (r : R).
Arguments Val {R A} a.
Arguments Thrown {R A} e.
Arguments Sent {R A} r.

Definition Handler (R A : Type) : Type := World → Outcome R A * World.

Global Instance Handler_ret R : MRet (Handler R) := λ A a w, (Val a, w).

Global Instance Handler_bind R : MBind (Handler R) := λ A B f m w,
  match m w with
  | (Val a, w') => f a w'
  | (Thrown e, w') => (Thrown e, w')
  | (Sent r, w') => (Sent r, w')
  end.

Definition throw {R A} (e : Error) : Handler R A := λ w, (Thrown e, w).
Definition send {R A} (r : R) : Handler R A := λ w, (Sent r, w).
Definition gets {R A} (f : World → A) : Handler R A := λ w, (Val (f w), w).
Definition modify {R} (f : World → World) : Handler R unit := λ w, (Val tt, f w).
Definition lift {R A} (f : World → A * World) : Handler R A := λ w,
  let '(a, w') := f w in (Val a, w').

(** [try { body } catch (error) { res.status(500).json({ error: failure }) }] *)
Definition route (failure : string) (body : Handler Response Response) (w : World)
  : Response * World :=
  match body w with
  | (Val r, w') => (r, w')
  | (Sent r, w') => (r, w')
  | (Thrown _, w') => (RError 500 failure, w')
  end.

(** [try { body } catch (err) { return fallback }] of a service function. *)
Definition guarded {A} (fallback : A) (body : Handler Empty_set A) (w : World)
  : A * World :=
  match body w with
  | (Val a, w') => (a, w')
  | (Thrown _, w') => (fallback, w')
  | (Sent r, _) => match r with end
  end.

(** ** Mongoose collections *)

Definition Inventory_findOne_barcode (b : string) (w : World) : option Inventory :=
  find (λ i, bool_decide (inv_barcode i = Some b)) (inventories w).

Definition Inventory_findOne_productId (p : ObjectId) (w : World) : option Inventory :=
  find (λ i, bool_decide (inv_productId i = Some p)) (inventories w).

Definition Inventory_findById (id : ObjectId) (w : World) : option Inventory :=
  find (λ i, bool_decide (inv_id i = id)) (inventories w).

Definition Product_findById (id : ObjectId) (w : World) : option Product :=
  find (λ p, bool_decide (prod_id p = id)) (products w).

Definition Product_findOne_barcode (b : string) (w : World) : option Product :=
  find (λ p, bool_decide (prod_barcode p = Some b)) (products w).

Definition replace_inv (i : Inventory) (l : list Inventory) : list Inventory :=
  map (λ j, if bool_decide (inv_id j = inv_id i) then i else j) l.

Definition replace_prod (p : Product) (l : list Product) : list Product :=
  map (λ j, if bool_decide (prod_id j = prod_id p) then p else j) l.

(** The unique sparse index on [barcode]: a document without the field is not
    indexed. *)
Definition Inventory_barcode_taken (b : option string) (l : list Inventory) : bool :=
  match b with
  | Some s => existsb (λ j, bool_decide (inv_barcode j = Some s)) l
  | None => false
  end.

Definition Product_barcode_taken (b : option string) (l : list Product) : bool :=
  match b with
  | Some s => existsb (λ j, bool_decide (prod_barcode j = Some s)) l
  | None => false
  end.

(** [new Model({...})] draws the [_id] when the document is built. *)
Definition new_oid {R} : Handler R ObjectId := λ w, (Val (next_oid w), bump_oid w).

(** [inventory.save()]: [productId] is [required]; a new document is inserted
    under the unique barcode index, an existing one is rewritten in place (no
    handler changes the barcode of an existing inventory document). *)
Definition Inventory_save {R} (isNew : bool) (i : Inventory) : Handler R unit := λ w,
  match inv_productId i with
  | None => (Thrown (ValidationError "productId"), w)
  | Some _ =>
      if isNew then
        if Inventory_barcode_taken (inv_barcode i) (inventories w)
        then (Thrown (DuplicateKey "barcode"), w)
        else (Val tt, set_inventories (inventories w ++ [i]) w)
      else
        match Inventory_findById (inv_id i) w with
        | Some _ => (Val tt, set_inventories (replace_inv i (inventories w)) w)
        | None => (Thrown DocumentNotFound, w)
        end
  end.

(** [product.save()]: the [category] enum is validated for a new document; the
    unique barcode index is consulted when the barcode is new or has changed. *)
Definition Product_save {R} (isNew : bool) (p : Product) : Handler R unit := λ w,
  if isNew then
    if negb (bool_decide (prod_category p ∈ Product_categories))
    then (Thrown (ValidationError "category"), w)
    else if Product_barcode_taken (prod_barcode p) (products w)
    then (Thrown (DuplicateKey "barcode"), w)
    else (Val tt, set_products (products w ++ [p]) w)
  else
    match Product_findById (prod_id p) w with
    | Some old =>
        if bool_decide (prod_barcode old = prod_barcode p)
        then (Val tt, set_products (replace_prod p (products w)) w)
        else if Product_barcode_taken (prod_barcode p) (products w)
        then (Thrown (DuplicateKey "barcode"), w)
        else (Val tt, set_products (replace_prod p (products w)) w)
    | None => (Thrown DocumentNotFound, w)
    end.

(** Field assignments on documents. *)
Definition inv_set_quantity (q : Z) (i : Inventory) : Inventory :=
  mkInventory (inv_id i) (inv_productId i) (inv_barcode i) q (inv_minStock i)
    (inv_location i) (inv_warehouse i) (inv_notes i) (inv_status i).
Definition inv_set_minStock (m : Z) (i : Inventory) : Inventory :=
  mkInventory (inv_id i) (inv_productId i) (inv_barcode i) (inv_quantity i) m
    (inv_location i) (inv_warehouse i) (inv_notes i) (inv_status i).
Definition inv_set_location (s : string) (i : Inventory) : Inventory :=
  mkInventory (inv_id i) (inv_productId i) (inv_barcode i) (inv_quantity i)
    (inv_minStock i) s (inv_warehouse i) (inv_notes i) (inv_status i).
Definition inv_set_warehouse (s : string) (i : Inventory) : Inventory :=
  mkInventory (inv_id i) (inv_productId i) (inv_barcode i) (inv_quantity i)
    (inv_minStock i) (inv_location i) s (inv_notes i) (inv_status i).
Definition inv_set_notes (s : option string) (i : Inventory) : Inventory :=
  mkInventory (inv_id i) (inv_productId i) (inv_barcode i) (inv_quantity i)
    (inv_minStock i) (inv_location i) (inv_warehouse i) s (inv_status i).
Definition inv_set_status (s : Status) (i : Inventory) : Inventory :=
  mkInventory (inv_id i) (inv_productId i) (inv_barcode i) (inv_quantity i)
    (inv_minStock i) (inv_location i) (inv_warehouse i) (inv_notes i) s.
Definition prod_set_stock (s : option Z) (p : Product) : Product :=
  mkProduct (prod_id p) (prod_name p) (prod_price p) (prod_category p)
    (prod_brand p) (prod_barcode p) s (prod_active p).
Definition prod_set_barcode (b : option string) (p : Product) : Product :=
  mkProduct (prod_id p) (prod_name p) (prod_price p) (prod_category p)
    (prod_brand p) b (prod_stock p) (prod_active p).

(** ** The Redis client, as a service module sees it *)

Module Redis.

(** What a module-level identifier is bound to. *)
Inductive Binding := BClient | BModel | BNamespace | BConst.

(** The top-level bindings of a module: its imports and its constants. *)
Definition Scope := list (string * Binding).

Definition lookup_ident (x : string) (scope : Scope) : option Binding :=
  snd <$> find (λ b, bool_decide (fst b = x)) scope.

(** Evaluating the expression [redisClient.<command>] in a module: an
    identifier the module never binds raises a ReferenceError. *)
Definition client {R} (scope : Scope) : Handler R unit :=
  match lookup_ident "redisClient" scope with
  | Some BClient => mret tt
  | Some _ => throw (TypeError "redisClient.command is not a function")
  | None => throw (ReferenceError "redisClient")
  end.

(** [redisClient.setEx(key, ttl, JSON.stringify(value))]. [JSON.stringify]
    of [undefined] is [undefined], which the client refuses as an argument;
    the server refuses a time to live that is not positive. *)
Definition setEx {R} (scope : Scope) (key : string) (ttl : Z)
    (value : option Snapshot) : Handler R unit :=
  _ ← client scope;
  match value with
  | None => throw (TypeError "Invalid argument type")
  | Some v =>
      if ttl <=? 0 then throw (ReplyError "ERR invalid expire time in 'setex' command")
      else modify (λ w, set_redis (<[key := (ttl, v)]> (redis w)) w)
  end.

(** [JSON.parse(await redisClient.get(key))], [None] for a missing key. *)
Definition get {R} (scope : Scope) (key : string) : Handler R (option Snapshot) :=
  _ ← client scope;
  gets (λ w, snd <$> redis w !! key).

Definition del {R} (scope : Scope) (key : string) : Handler R unit :=
  _ ← client scope;
  modify (λ w, set_redis (delete key (redis w)) w).

(** [redisClient.keys(prefix + '*')] *)
Definition keys {R} (scope : Scope) (pre : string) : Handler R (list string) :=
  _ ← client scope;
  gets (λ w, filter (λ k, String.prefix pre k = true) (elements (dom (redis w)))).

(** [redisClient.del(keys)] with an array of keys. *)
Definition del_all {R} (scope : Scope) (ks : list string) : Handler R unit :=
  _ ← client scope;
  modify (λ w, set_redis (foldr delete (redis w) ks) w).

End Redis.

(** A value interpolated into a template literal to form a cache key. *)
Inductive JsArg :=
  | JsUndefined
  | JsId (id : ObjectId)
  | JsStr (s : string)
  | JsArray (elements : list string).     (* an array, by its elements' strings *)

(** [`${x}`]: an array joins the strings of its elements with commas. *)
Definition template (x : JsArg) : string :=
  match x with
  | JsUndefined => "undefined"
  | JsId id => pretty id
  | JsStr s => s
  | JsArray l => String.concat "," l
  end.

(** ** [services/cacheService.js] *)

Module cacheService.

(** [import redisClient from '../config/redis.js'] *)
Definition scope : Redis.Scope :=
  [("redisClient", Redis.BClient); ("CACHE_EXPIRY", Redis.BConst)].

Definition EXPIRY_PRODUCT : Z := 60 * 60.
Definition EXPIRY_INVENTORY : Z := 30 * 60.
Definition EXPIRY_BARCODE : Z := 24 * 60 * 60.

Definition cacheProduct (productId : JsArg) (productData : option Snapshot)
  : World → bool * World :=
  guarded false (
    let key := "product:" +:+ template productId in
    _ ← Redis.setEx scope key EXPIRY_PRODUCT productData;
    mret true).

Definition getCachedProduct (productId : JsArg) : World → option Snapshot * World :=
  guarded None (
    let key := "product:" +:+ template productId in
    Redis.get scope key).

Definition cacheProductByBarcode (barcode : JsArg) (productData : option Snapshot)
  : World → bool * World :=
  guarded false (
    let key := "barcode:" +:+ template barcode in
    _ ← Redis.setEx scope key EXPIRY_BARCODE productData;
    mret true).

Definition getCachedProductByBarcode (barcode : JsArg)
  : World → option Snapshot * World :=
  guarded None (
    let key := "barcode:" +:+ template barcode in
    Redis.get scope key).

(** [invalidateProductCache(productId, barcode = null)] *)
Definition invalidateProductCache (productId : JsArg) (barcode : option string)
  : World → bool * World :=
  guarded false (
    _ ← Redis.del scope ("product:" +:+ template productId);
    _ ← (if Js.truthy_str barcode
         then Redis.del scope ("barcode:" +:+ default "" barcode)
         else mret tt);
    _ ← Redis.del scope "products:list";
    mret true).

Definition cacheInventory (inventoryId : JsArg) (inventoryData : option Snapshot)
  : World → bool * World :=
  guarded false (
    let key := "inventory:" +:+ template inventoryId in
    _ ← Redis.setEx scope key EXPIRY_INVENTORY inventoryData;
    mret true).

Definition getCachedInventory (inventoryId : JsArg)
  : World → option Snapshot * World :=
  guarded None (
    let key := "inventory:" +:+ template inventoryId in
    Redis.get scope key).

(** [invalidateInventoryCache(inventoryId = null)] *)
Definition invalidateInventoryCache (inventoryId : option ObjectId)
  : World → bool * World :=
  guarded false (
    _ ← match inventoryId with
        | Some id => Redis.del scope ("inventory:" +:+ pretty id)
        | None => mret tt
        end;
    _ ← Redis.del scope "inventory:list";
    mret true).

End cacheService.

(** ** [services/billService.js] *)

Module billService.

(** The module imports [Bill] and the [cacheService] namespace and defines
    [CACHE_EXPIRY]; it has no binding for [redisClient]. *)
Definition scope : Redis.Scope :=
  [("Bill", Redis.BModel); ("cacheService", Redis.BNamespace);
   ("CACHE_EXPIRY", Redis.BConst)].

Definition EXPIRY_BILL_LIST : Z := 5 * 60.
Definition EXPIRY_BILL_DETAIL : Z := 10 * 60.
Definition EXPIRY_BILL_STATS : Z := 1 * 60.

Definition cacheBillList (userId : JsArg) (bills : option Snapshot)
  : World → bool * World :=
  guarded false (
    let key := "bills:" +:+ template userId in
    _ ← Redis.setEx scope key EXPIRY_BILL_LIST bills;
    mret true).

Definition getCachedBillList (userId : JsArg) : World → option Snapshot * World :=
  guarded None (
    let key := "bills:" +:+ template userId in
    Redis.get scope key).

Definition cacheBill (billId : JsArg) (billData : option Snapshot)
  : World → bool * World :=
  guarded false (
    let key := "bill:" +:+ template billId in
    _ ← Redis.setEx scope key EXPIRY_BILL_DETAIL billData;
    mret true).

Definition getCachedBill (billId : JsArg) : World → option Snapshot * World :=
  guarded None (
    let key := "bill:" +:+ template billId in
    Redis.get scope key).

Definition cacheBillByNumber (billNumber : JsArg) (billData : option Snapshot)
  : World → bool * World :=
  guarded false (
    let key := "bill-number:" +:+ template billNumber in
    _ ← Redis.setEx scope key EXPIRY_BILL_DETAIL billData;
    mret true).

Definition getCachedBillByNumber (billNumber : JsArg)
  : World → option Snapshot * World :=
  guarded None (
    let key := "bill-number:" +:+ template billNumber in
    Redis.get scope key).

Definition cacheBillStats (statsKey : JsArg) (statsData : option Snapshot)
  : World → bool * World :=
  guarded false (
    let key := "bill-stats:" +:+ template statsKey in
    _ ← Redis.setEx scope key EXPIRY_BILL_STATS statsData;
    mret true).

Definition getCachedBillStats (statsKey : JsArg) : World → option Snapshot * World :=
  guarded None (
    let key := "bill-stats:" +:+ template statsKey in
    Redis.get scope key).

Definition invalidateBillListCache (userId : JsArg) : World → bool * World :=
  guarded false (
    let key := "bills:" +:+ template userId in
    _ ← Redis.del scope key;
    mret true).

Definition invalidateBillCache (billId : JsArg) : World → bool * World :=
  guarded false (
    let key := "bill:" +:+ template billId in
    _ ← Redis.del scope key;
    mret true).

Definition invalidateBillByNumberCache (billNumber : JsArg) : World → bool * World :=
  guarded false (
    let key := "bill-number:" +:+ template billNumber in
    _ ← Redis.del scope key;
    mret true).

Definition invalidateBillStatsCache : World → bool * World :=
  guarded false (
    keys ← Redis.keys scope "bill-stats:";
    _ ← (if (0 <? length keys)%nat then Redis.del_all scope keys else mret tt);
    mret true).

(** The body of the [forEach] that fills [paymentMethodBreakdown]. *)
Definition tally (acc : gmap PaymentMethod Breakdown) (bill : Bill)
  : gmap PaymentMethod Breakdown :=
  let m := bill_paymentMethod bill in
  let acc :=
    match acc !! m with
    | None => <[m := mkBreakdown 0 0%float]> acc
    | Some _ => acc
    end in
  let acc := alter (λ e, mkBreakdown (bd_count e + 1) (bd_total e)) m acc in
  alter (λ e, mkBreakdown (bd_count e) (Js.add (bd_total e) (bill_total bill))) m acc.

(** [calculateBillStats(bills)] *)
Definition calculateBillStats (bills : list Bill) : Stats :=
  let totalBills := length bills in
  let totalRevenue := fold_left (λ sum bill, Js.add sum (bill_total bill)) bills 0%float in
  let totalTax := fold_left (λ sum bill, Js.add sum (bill_tax bill)) bills 0%float in
  let totalDiscount :=
    fold_left (λ sum bill, Js.add sum (bill_discount bill)) bills 0%float in
  let averageBill :=
    if (0 <? totalBills)%nat then (totalRevenue / Js.of_count totalBills)%float
    else 0%float in
  let paymentMethodBreakdown := fold_left tally bills ∅ in
  mkStats totalBills totalRevenue totalTax totalDiscount averageBill
    paymentMethodBreakdown.

End billService.

(** ** [routes/inventory.js]: the mutating handlers *)

(** The body of [POST /api/inventory] and of [PUT /api/inventory/:id]. *)
Record InventoryBody := mkInventoryBody {
  body_productId : option ObjectId;
  body_barcode : option string;
  body_quantity : option Z;
  body_minStock : option Z;
  body_location : option string;
  body_warehouse : option string;
  body_notes : option string
}.

(** [POST /api/inventory]: add inventory for a product (create or restock). *)
Definition post_inventory (body : InventoryBody) : World → Response * World :=
  route "Failed to add inventory" (
    let productId := body_productId body in
    let barcode := body_barcode body in
    let quantity := body_quantity body in
    let minStock := body_minStock body in
    let location := body_location body in
    let warehouse := body_warehouse body in
    if negb (Js.truthy_num quantity) then send (RError 400 "Quantity is required")
    else
    let q := default 0 quantity in
    (* Check if product exists *)
    product ← match productId with
              | Some pid =>
                  p ← gets (Product_findById pid);
                  match p with
                  | None => send (RError 404 "Product not found")
                  | Some _ => mret p
                  end
              | None => mret None
              end;
    (* Check if inventory already exists by barcode *)
    found ← (if Js.truthy_str barcode
             then gets (Inventory_findOne_barcode (default "" barcode))
             else match productId with
                  | Some pid => gets (Inventory_findOne_productId pid)
                  | None => mret None
                  end);
    doc ← match found with
          | Some inventory =>
              (* Update existing inventory *)
              let inventory := inv_set_quantity (inv_quantity inventory + q) inventory in
              let inventory :=
                inv_set_minStock (Js.or_num minStock (inv_minStock inventory)) inventory in
              let inventory :=
                inv_set_location (Js.or_str location (inv_location inventory)) inventory in
              let inventory :=
                inv_set_warehouse (Js.or_str warehouse (inv_warehouse inventory)) inventory in
              mret (false, inventory)
          | None =>
              (* Create new inventory *)
              if negb (Js.truthy_id productId) && negb (Js.truthy_str barcode)
              then send (RError 400
                     "Either productId or barcode is required for new inventory")
              else
                id ← new_oid;
                mret (true, mkInventory id productId barcode q
                              (Js.or_num minStock 10)
                              (Js.or_str location "Main Store")
                              (Js.or_str warehouse "Default")
                              None InStock)
          end;
    let isNew := fst doc in
    let inventory := snd doc in
    (* Update status based on quantity *)
    let inventory :=
      if inv_quantity inventory =? 0 then inv_set_status OutOfStock inventory
      else if inv_quantity inventory <=? inv_minStock inventory
      then inv_set_status LowStock inventory
      else inv_set_status InStock inventory in
    (* Update product stock if product exists *)
    _ ← match product with
        | Some product =>
            let product := prod_set_stock (Some (inv_quantity inventory)) product in
            let product :=
              prod_set_barcode (Js.or_str_opt barcode (prod_barcode product)) product in
            Product_save false product
        | None => mret tt
        end;
    _ ← Inventory_save isNew inventory;
    mret (RInventory 201 inventory)).

(** The body of [POST /api/inventory/register-barcode]. *)
Record RegisterBody := mkRegisterBody {
  reg_barcode : option string;
  reg_name : option string;
  reg_price : option Qc;
  reg_category : option string;
  reg_brand : option string;
  reg_quantity : option Z;
  reg_location : option string;
  reg_warehouse : option string
}.

(** [POST /api/inventory/register-barcode] *)
Definition post_register_barcode (body : RegisterBody) : World → Response * World :=
  route "Failed to register barcode" (
    let barcode := reg_barcode body in
    let quantity := reg_quantity body in
    let location := reg_location body in
    let warehouse := reg_warehouse body in
    if negb (Js.truthy_str barcode) || negb (Js.truthy_str (reg_name body))
       || negb (Js.truthy_money (reg_price body))
       || negb (Js.truthy_str (reg_category body))
    then send (RError 400 "Barcode, name, price, and category are required")
    else
    let b := default "" barcode in
    (* Check if barcode already exists *)
    existing ← gets (Product_findOne_barcode b);
    product ← match existing with
              | Some product => mret product
              | None =>
                  id ← new_oid;
                  let product :=
                    mkProduct id (default "" (reg_name body))
                      (default 0%Qc (reg_price body))
                      (default "" (reg_category body))
                      (Some (Js.or_str (reg_brand body) ""))
                      barcode (Some (Js.or_num quantity 0)) true in
                  _ ← Product_save true product;
                  mret product
              end;
    (* Check if inventory exists *)
    found ← gets (Inventory_findOne_barcode b);
    doc ← match found with
          | Some inventory =>
              let inventory :=
                inv_set_quantity (inv_quantity inventory + Js.or_num quantity 0)
                  inventory in
              let inventory :=
                inv_set_location (Js.or_str location (inv_location inventory)) inventory in
              let inventory :=
                inv_set_warehouse (Js.or_str warehouse (inv_warehouse inventory)) inventory in
              mret (false, inventory)
          | None =>
              id ← new_oid;
              mret (true, mkInventory id (Some (prod_id product)) barcode
                            (Js.or_num quantity 0) 10
                            (Js.or_str location "Main Store")
                            (Js.or_str warehouse "Default")
                            None InStock)
          end;
    let isNew := fst doc in
    let inventory := snd doc in
    (* Update status *)
    let inventory :=
      if inv_quantity inventory =? 0 then inv_set_status OutOfStock inventory
      else if inv_quantity inventory <=? inv_minStock inventory
      then inv_set_status LowStock inventory
      else inv_set_status InStock inventory in
    _ ← Inventory_save isNew inventory;
    (* Update product stock *)
    let product := prod_set_stock (Some (inv_quantity inventory)) product in
    _ ← Product_save false product;
    mret (RRegistered product inventory)).

(** The update document of [PUT /api/inventory/:id] applied to a stored
    document: a key whose value is [undefined] is dropped. *)
Definition Inventory_update (body : InventoryBody) (inventory : Inventory) : Inventory :=
  let inventory :=
    match body_quantity body with
    | Some q => inv_set_quantity q inventory | None => inventory end in
  let inventory :=
    match body_minStock body with
    | Some m => inv_set_minStock m inventory | None => inventory end in
  let inventory :=
    match body_location body with
    | Some s => inv_set_location s inventory | None => inventory end in
  let inventory :=
    match body_warehouse body with
    | Some s => inv_set_warehouse s inventory | None => inventory end in
  match body_notes body with
  | Some s => inv_set_notes (Some s) inventory | None => inventory end.

(** [Inventory.findByIdAndUpdate(id, update, { new: true })]: the update is
    written at once, without validation, and the updated document returned. *)
Definition Inventory_findByIdAndUpdate {R} (id : ObjectId) (body : InventoryBody)
  : Handler R (option Inventory) := λ w,
  match Inventory_findById id w with
  | None => (Val None, w)
  | Some inventory =>
      let inventory := Inventory_update body inventory in
      (Val (Some inventory), set_inventories (replace_inv inventory (inventories w)) w)
  end.

Definition Product_of_inventory (inventory : Inventory) (w : World) : option Product :=
  match inv_productId inventory with
  | Some pid => Product_findById pid w
  | None => None
  end.

(** [PUT /api/inventory/:id]: update inventory. *)
Definition put_inventory (id : ObjectId) (body : InventoryBody)
  : World → Response * World :=
  route "Failed to update inventory" (
    let quantity := body_quantity body in
    updated ← Inventory_findByIdAndUpdate id body;
    match updated with
    | None => send (RError 404 "Inventory not found")
    | Some inventory =>
        (* .populate('productId') *)
        populated ← gets (Product_of_inventory inventory);
        (* Update status *)
        let inventory :=
          if inv_quantity inventory =? 0 then inv_set_status OutOfStock inventory
          else if inv_quantity inventory <=? inv_minStock inventory
          then inv_set_status LowStock inventory
          else inv_set_status InStock inventory in
        _ ← Inventory_save false inventory;
        (* Update product stock *)
        product ← gets (Product_of_inventory inventory);
        _ ← match product with
            | Some product => Product_save false (prod_set_stock quantity product)
            | None => mret tt
            end;
        mret (RPopulated 200 inventory populated)
    end).

(** [PUT /api/inventory/:id/adjust-quantity]: add to or remove from the
    quantity; [quantity] is the signed adjustment. *)
Definition put_adjust_quantity (id : ObjectId) (quantity : option Z)
  : World → Response * World :=
  route "Failed to adjust inventory" (
    match quantity with
    | None => send (RError 400 "Quantity adjustment is required")
    | Some delta =>
        found ← gets (Inventory_findById id);
        match found with
        | None => send (RError 404 "Inventory not found")
        | Some inventory =>
            (* .populate('productId') *)
            populated ← gets (Product_of_inventory inventory);
            let inventory :=
              inv_set_quantity (inv_quantity inventory + delta) inventory in
            (* Update status *)
            let inventory :=
              if inv_quantity inventory =? 0 then inv_set_status OutOfStock inventory
              else if inv_quantity inventory <=? inv_minStock inventory
              then inv_set_status LowStock inventory
              else inv_set_status InStock inventory in
            _ ← Inventory_save false inventory;
            (* Update product stock *)
            product ← gets (Product_of_inventory inventory);
            _ ← match product with
                | Some product =>
                    Product_save false
                      (prod_set_stock (Some (inv_quantity inventory)) product)
                | None => mret tt
                end;
            mret (RPopulated 200 inventory populated)
        end
    end).

(** An element of [billItems] that is an object. *)
Record BillItem := mkBillItem {
  item_barcode : option string;
  item_id : option ObjectId;
  item_quantity : Z;
  item_name : option string
}.

(** [req.body.billItems]: absent (or otherwise falsy), present but not an
    array, or an array, an element of which is an object or [null] ([None]).
    An element that is a number, a string or a boolean destructures to three
    [undefined]s, as an object without the fields does. *)
Inductive BillItems :=
  | ItemsMissing
  | ItemsNotArray
  | ItemsArray (items : list (option BillItem)).

(** [item.name || barcode || id] *)
Definition item_label (item : BillItem) : option string :=
  Js.or_str_opt (item_name item)
    (Js.or_str_opt (item_barcode item) (pretty <$> item_id item)).

(** The [try] block of one iteration; [inr] is an entry pushed to [errors]
    before [continue], [inl] an entry pushed to [deductedItems]. *)
Definition deduct_item_try (item : BillItem)
  : Handler Empty_set (DeductedItem + ItemError) :=
  let barcode := item_barcode item in
  let id := item_id item in
  let quantity := item_quantity item in
  (* Find inventory by barcode or productId *)
  found ← (if Js.truthy_str barcode
           then gets (Inventory_findOne_barcode (default "" barcode))
           else match id with
                | Some pid => gets (Inventory_findOne_productId pid)
                | None => mret None
                end);
  match found with
  | None => mret (inr (mkItemError (item_label item) ItemNotFound))
  | Some inventory =>
      (* Check if sufficient quantity exists *)
      if inv_quantity inventory <? quantity
      then mret (inr (mkItemError (item_label item)
                        (Insufficient (inv_quantity inventory) quantity)))
      else
        (* Deduct quantity *)
        let inventory :=
          inv_set_quantity (inv_quantity inventory - quantity) inventory in
        (* Update status based on new quantity *)
        let inventory :=
          if inv_quantity inventory =? 0 then inv_set_status OutOfStock inventory
          else if inv_quantity inventory <=? inv_minStock inventory
          then inv_set_status LowStock inventory
          else inv_set_status InStock inventory in
        _ ← Inventory_save false inventory;
        (* Also update product stock *)
        product ← gets (Product_of_inventory inventory);
        _ ← match product with
            | Some product =>
                Product_save false
                  (prod_set_stock (Some (inv_quantity inventory)) product)
            | None => mret tt
            end;
        mret (inl (mkDeducted (inv_barcode inventory) (item_name item) quantity
                     (inv_quantity inventory) (inv_status inventory)))
  end.

(** One iteration on an element that is an object, with its
    [catch (itemError)], which pushes an entry to [errors]. *)
Definition deduct_item (item : BillItem) (w : World)
  : (DeductedItem + ItemError) * World :=
  match deduct_item_try item w with
  | (Val r, w') => (r, w')
  | (Thrown e, w') => (inr (mkItemError (item_label item) (ItemException e)), w')
  | (Sent r, _) => match r with end
  end.

(** One iteration on an element of the array. On [null] the destructuring
    [const { barcode, id, quantity } = item] throws inside the [try]; the
    [catch] then reads [item.name] and throws in its turn, out of the loop. *)
Definition deduct_element (item : option BillItem)
  : Handler Response (DeductedItem + ItemError) :=
  match item with
  | Some item => lift (deduct_item item)
  | None => throw (TypeError "Cannot read properties of null (reading 'name')")
  end.

(** [for (const item of billItems) { ... }] over the two accumulators. *)
Fixpoint deduct_loop (items : list (option BillItem))
    (deductedItems : list DeductedItem) (errors : list ItemError)
  : Handler Response (list DeductedItem * list ItemError) :=
  match items with
  | [] => mret (deductedItems, errors)
  | item :: rest =>
      r ← deduct_element item;
      match r with
      | inl d => deduct_loop rest (deductedItems ++ [d]) errors
      | inr e => deduct_loop rest deductedItems (errors ++ [e])
      end
  end.

(** [POST /api/inventory/deduct-bill] *)
Definition post_deduct_bill (billItems : BillItems) : World → Response * World :=
  route "Failed to deduct inventory for bill" (
    match billItems with
    | ItemsMissing | ItemsNotArray | ItemsArray [] =>
        send (RError 400 "billItems array is required")
    | ItemsArray items =>
        r ← deduct_loop items [] [];
        let deductedItems := fst r in
        let errors := snd r in
        mret (RDeducted deductedItems
                (if (0 <? length errors)%nat then Some errors else None))
    end).

(** ** [routes/inventory.js] and [routes/products.js]: the cached reads *)

Section InventoryList.

(** [Inventory.find(query).populate('productId').sort({ warehouse: 1,
    location: 1 })] for the query built from the three filters (with the
    regular-expression product search behind [search]): the query engine is
    not part of the repository. *)
Variable Inventory_find :
  option string → option string → option string → World → list Inventory.

(** Mongoose's [Document.prototype.toString]. *)
Variable Document_toString : Inventory → string.

(** [GET /api/inventory]. The route calls [getCachedInventory()] with no
    argument and [cacheInventory(inventory)] with the list as its first and
    only argument. *)
Definition get_inventory (warehouse status search : option string)
  : World → Response * World :=
  route "Failed to fetch inventory" (
    let unfiltered :=
      negb (Js.truthy_str warehouse) && negb (Js.truthy_str status)
      && negb (Js.truthy_str search) in
    (* Check cache if no filters applied *)
    _ ← (if unfiltered
         then
           cachedInventory ← lift (cacheService.getCachedInventory JsUndefined);
           match cachedInventory with
           | Some data => send (RCachedInventory data)
           | None => mret tt
           end
         else mret tt);
    inventory ← gets (Inventory_find warehouse status search);
    (* Cache full inventory if no filters *)
    _ ← (if unfiltered
         then
           _ ← lift (cacheService.cacheInventory
                       (JsArray (map Document_toString inventory)) None);
           mret tt
         else mret tt);
    mret (RInventoryList inventory)).

End InventoryList.

(** [GET /api/products/barcode/:barcode] *)
Definition get_product_by_barcode (barcode : string) : World → Response * World :=
  route "Failed to fetch product by barcode" (
    (* Check cache first *)
    cachedProduct ← lift (cacheService.getCachedProductByBarcode (JsStr barcode));
    match cachedProduct with
    | Some data => send (RCachedProduct data)
    | None =>
        product ← gets (λ w,
          find (λ p, bool_decide (prod_barcode p = Some barcode) && prod_active p)
               (products w));
        match product with
        | None => send (RError 404 "Product not found by barcode")
        | Some product =>
            (* Cache the product *)
            _ ← lift (cacheService.cacheProductByBarcode (JsStr barcode)
                        (Some (SnapProduct product)));
            mret (RProduct product)
        end
    end).

(** ** The bill routes: bill creation *)

(** [generateBillNumber()], [now] being the reading of [Date.now()]. *)
Definition generateBillNumber (now : Z) : string := "BILL-" +:+ pretty now.

(** The body of [POST /api/bills]. A numeric field that is present is a
    JSON number or [null]. *)
Record BillBody := mkBillBody {
  bb_items : option (list BillLine);
  bb_subtotal : Js.Numeric;
  bb_tax : Js.Numeric;
  bb_taxPercentage : Js.Numeric;
  bb_discount : Js.Numeric;
  bb_total : Js.Numeric;
  bb_paymentMethod : option string;
  bb_amountReceived : Js.Numeric;
  bb_notes : option string
}.

(** Whether every value at a [Number] path of the document passed the cast. *)
Definition Bill_castable (b : Bill) : bool :=
  Js.castable (bill_subtotal b) && Js.castable (bill_tax b)
  && Js.castable (bill_taxPercentage b) && Js.castable (bill_discount b)
  && Js.castable (bill_total b) && Js.castable (bill_amountReceived b)
  && Js.castable (bill_change b)
  && forallb (λ l, Js.castable (line_quantity l) && Js.castable (line_unitPrice l)
                   && Js.castable (line_totalPrice l)) (bill_items b).

(** [bill.save()] of a new bill: validation refuses a payment method outside
    the schema's enum and a value that failed its cast; the insert is then
    under the unique index on [billNumber]. *)
Definition Bill_save {R} (paymentMethod : string) (doc : PaymentMethod → Bill)
  : Handler R Bill := λ w,
  match PaymentMethod_parse paymentMethod with
  | None => (Thrown (ValidationError "paymentMethod"), w)
  | Some m =>
      let bill := doc m in
      if negb (Bill_castable bill)
      then (Thrown (ValidationError "Number"), w)
      else if existsb (λ b, bool_decide (bill_billNumber b = bill_billNumber bill))
                (bills w)
      then (Thrown (DuplicateKey "billNumber"), w)
      else (Val bill, set_bills (bills w ++ [bill]) w)
  end.

(** [POST /api/bills] for the authenticated user [userId]. *)
Definition post_bill (now : Z) (userId : ObjectId) (body : BillBody)
  : World → Response * World :=
  route "Failed to create bill" (
    let items := bb_items body in
    let taxPercentage := Js.or_default (bb_taxPercentage body) 5 in
    let total := bb_total body in
    let paymentMethod := bb_paymentMethod body in
    let amountReceived := bb_amountReceived body in
    if match items with None | Some [] => true | Some _ => false end
    then send (RError 400 "Bill must have at least one item")
    else if negb (Js.truthy_str paymentMethod)
    then send (RError 400 "Payment method is required")
    else
      let billNumber := generateBillNumber now in
      let change :=
        if Js.truthy amountReceived then Js.sub amountReceived total else 0%float in
      id ← new_oid;
      bill ← Bill_save (default "" paymentMethod) (λ m,
               mkBill id userId billNumber (default [] items) (bb_subtotal body)
                 (bb_tax body) (Js.or_default taxPercentage 5)
                 (Js.or_default (bb_discount body) 0) total m Completed
                 amountReceived (Js.Num change) (bb_notes body));
      (* Invalidate bill list cache *)
      _ ← lift (billService.invalidateBillListCache (JsId userId));
      _ ← lift billService.invalidateBillStatsCache;
      mret (RBill bill)).

(** ** The inventory operations as one transition system *)

Inductive Op :=
  | CreateOrRestock (body : InventoryBody)
  | RegisterBarcode (body : RegisterBody)
  | FullUpdate (id : ObjectId) (body : InventoryBody)
  | AdjustQuantity (id : ObjectId) (quantity : option Z)
  | DeductForBill (billItems : BillItems).

Definition run (op : Op) : World → Response * World :=
  match op with
  | CreateOrRestock body => post_inventory body
  | RegisterBarcode body => post_register_barcode body
  | FullUpdate id body => put_inventory id body
  | AdjustQuantity id quantity => put_adjust_quantity id quantity
  | DeductForBill billItems => post_deduct_bill billItems
  end.



(** ** The status rule and the store invariants *)

(** [deriveStatus] as the specification words it: zero is out of stock, at or
    below the reorder threshold is low stock, anything else is in stock. The
    handlers above each spell the rule out after setting the quantity. *)
Definition deriveStatus (quantity minStock : Z) : Status :=
  if quantity =? 0 then OutOfStock
  else if quantity <=? minStock then LowStock
  else InStock.

(** A document whose status is set by that rule. *)
Definition derive (i : Inventory) : Inventory :=
  inv_set_status (deriveStatus (inv_quantity i) (inv_minStock i)) i.

Definition status_derived (i : Inventory) : Prop :=
  inv_status i = deriveStatus (inv_quantity i) (inv_minStock i).

(** Every stored inventory document passed the schema's [required] check. *)
Definition validated (w : World) : Prop :=
  Forall (λ i, is_Some (inv_productId i)) (inventories w).

(** Every [_id] in the inventory collection was drawn from the counter. *)
Definition oid_fresh (w : World) : Prop :=
  Forall (λ i, (inv_id i < next_oid w)%nat) (inventories w).

(** Relations between the world before and after a computation. *)
Definition same_redis (w w' : World) : Prop := redis w' = redis w.

Definition keeps_validated (w w' : World) : Prop := validated w → validated w'.

Definition writes_derived (w w' : World) : Prop :=
  ∀ i, i ∈ inventories w' → i ∈ inventories w ∨ status_derived i.

(** A computation whose final world is always related to its initial one. *)
Definition preserves (P : World → World → Prop) {R A} (m : Handler R A) : Prop :=
  ∀ w, P w (m w).2.

Global Instance validated_dec w : Decision (validated w).
Proof. unfold validated. apply _. Defined.

(** ** Vocabulary of the statements about bills and bill items *)

(** The sum of a list of values as the code's arithmetic has it: started at
    0 and taken from left to right in doubles, an absent value counting as
    NaN and [null] as 0. *)
Definition double_sum (l : list Js.Numeric) : float :=
  fold_left (λ s v, (s + Js.ToNumber v)%float) l 0%float.


(** The bills paid by a given method, in their order in the list. *)
Definition paid_by (m : PaymentMethod) (l : list Bill) : list Bill :=
  filter (λ b, bill_paymentMethod b = m) l.

(** The inventory document an item of a bill refers to: looked up by barcode
    when the item has one, by product id otherwise. *)
Definition resolve_item (item : BillItem) (w : World) : option Inventory :=
  if Js.truthy_str (item_barcode item)
  then Inventory_findOne_barcode (default "" (item_barcode item)) w
  else match item_id item with
       | Some pid => Inventory_findOne_productId pid w
       | None => None
       end.




(** A request [POST /api/bills] turns down before it builds a bill: no items,
    or no payment method. *)
Definition bill_rejected (body : BillBody) : Prop :=
  bb_items body = None ∨ bb_items body = Some []
  ∨ Js.truthy_str (bb_paymentMethod body) = false.

(** The change a request asks back: amountReceived - total in doubles when
    an amount received is given and is not zero, and 0 otherwise. *)
Definition change_due (body : BillBody) : float :=
  if Js.truthy (bb_amountReceived body)
  then (Js.ToNumber (bb_amountReceived body) - Js.ToNumber (bb_total body))%float
  else 0%float.

(** The bill [POST /api/bills] builds from a request that it does not turn
    down, under the id it draws and the payment method [m]. *)
Definition new_bill (now : Z) (userId id : ObjectId) (body : BillBody)
    (m : PaymentMethod) : Bill :=
  mkBill id userId ("BILL-" +:+ pretty now) (default [] (bb_items body))
    (bb_subtotal body) (bb_tax body)
    (match bb_taxPercentage body with Js.Absent => Js.Num 5 | v => v end)
    (match bb_discount body with Js.Absent => Js.Num 0 | v => v end)
    (bb_total body) m Completed (bb_amountReceived body)
    (Js.Num (change_due body)) (bb_notes body).

(** The stock mirror: the product an inventory document points to, if it can
    be found, takes the document's quantity as its stock. *)
Definition mirror (inv : Inventory) (w : World) : World :=
  match Product_of_inventory inv w with
  | Some p =>
      set_products (replace_prod (prod_set_stock (Some (inv_quantity inv)) p)
                      (products w)) w
  | None => w
  end.

(** The inventory document [POST /api/inventory] restocks, if any: looked up
    by barcode when the request has one, by product id otherwise. *)
Definition lookup_inventory (body : InventoryBody) (w : World) : option Inventory :=
  if Js.truthy_str (body_barcode body)
  then Inventory_findOne_barcode (default "" (body_barcode body)) w
  else match body_productId body with
       | Some pid => Inventory_findOne_productId pid w
       | None => None
       end.

(** Whether the product side of [POST /api/inventory] goes through: the
    request names no product, or it names one that exists and whose barcode
    either stays as it is or moves to one no product holds. *)
Definition product_accepted (body : InventoryBody) (w : World) : bool :=
  match body_productId body with
  | None => true
  | Some pid =>
      match Product_findById pid w with
      | None => false
      | Some p =>
          let barcode := Js.or_str_opt (body_barcode body) (prod_barcode p) in
          bool_decide (prod_barcode p = barcode)
          || negb (Product_barcode_taken barcode (products w))
      end
  end.

(** The document a restock of [q] units leaves. *)
Definition restocked (body : InventoryBody) (q : Z) (inv : Inventory) : Inventory :=
  let minStock := Js.or_num (body_minStock body) (inv_minStock inv) in
  mkInventory (inv_id inv) (inv_productId inv) (inv_barcode inv)
    (inv_quantity inv + q) minStock
    (Js.or_str (body_location body) (inv_location inv))
    (Js.or_str (body_warehouse body) (inv_warehouse inv))
    (inv_notes inv) (deriveStatus (inv_quantity inv + q) minStock).

(** The document a first stocking of [q] units creates. *)
Definition created (body : InventoryBody) (q : Z) (id : ObjectId) : Inventory :=
  let minStock := Js.or_num (body_minStock body) 10 in
  mkInventory id (body_productId body) (body_barcode body) q minStock
    (Js.or_str (body_location body) "Main Store")
    (Js.or_str (body_warehouse body) "Default")
    None (deriveStatus q minStock).

(** The inventory documents that carry a given barcode. *)
Definition with_barcode (b : string) (w : World) : list Inventory :=
  filter (λ i, inv_barcode i = Some b) (inventories w).

(** The product side of [POST /api/inventory], once it is known to go
    through: the product named by the request takes the new quantity as its
    stock and, when the request has one, the barcode. *)
Definition product_mirrored (body : InventoryBody) (quantity : Z) (w : World) : World :=
  match body_productId body with
  | None => w
  | Some pid =>
      match Product_findById pid w with
      | None => w
      | Some p =>
          set_products
            (replace_prod
               (prod_set_barcode (Js.or_str_opt (body_barcode body) (prod_barcode p))
                  (prod_set_stock (Some quantity) p))
               (products w)) w
      end
  end.

(** ** [routes/inventory.js]: the remaining reads *)


(** [GET /api/inventory/barcode/:barcode] *)
Definition get_inventory_by_barcode (barcode : string) : World → Response * World :=
  route "Failed to fetch inventory by barcode" (
    inventory ← gets (Inventory_findOne_barcode barcode);
    match inventory with
    | None => send (RError 404 "Inventory item not found by barcode")
    | Some inventory => mret (RInventory 200 inventory)
    end).

(** ** [routes/products.js]: read by id and soft delete *)

Definition prod_set_active (a : bool) (p : Product) : Product :=
  mkProduct (prod_id p) (prod_name p) (prod_price p) (prod_category p)
    (prod_brand p) (prod_barcode p) (prod_stock p) a.

(** [GET /api/products/:id] *)
Definition get_product (id : ObjectId) : World → Response * World :=
  route "Failed to fetch product" (
    product ← gets (Product_findById id);
    match product with
    | None => send (RError 404 "Product not found")
    | Some product => mret (RProduct product)
    end).

(** [Product.findByIdAndUpdate(id, { active: false }, { new: true })] *)
Definition Product_deactivate {R} (id : ObjectId) : Handler R (option Product) := λ w,
  match Product_findById id w with
  | None => (Val None, w)
  | Some product =>
      let product := prod_set_active false product in
      (Val (Some product), set_products (replace_prod product (products w)) w)
  end.

(** [DELETE /api/products/:id]: the product is kept and marked inactive. *)
Definition delete_product (id : ObjectId) : World → Response * World :=
  route "Failed to delete product" (
    product ← Product_deactivate id;
    match product with
    | None => send (RError 404 "Product not found")
    | Some product => mret (RProduct product)
    end).

(** ** [services/cacheService.js]: users and carts *)

Module cacheServiceUser.








End cacheServiceUser.

(** ** [services/billService.js]: popular products *)

(** A plain object used as a dictionary, its keys in insertion order. The
    keys here are product ids as strings, or "undefined" ([None]) for a line
    without one. *)
Definition obj_get {V} (k : option ObjectId) (o : list (option ObjectId * V))
  : option V :=
  snd <$> find (λ kv, bool_decide (kv.1 = k)) o.

(** [o[k] = v] *)
Definition obj_set {V} (k : option ObjectId) (v : V) (o : list (option ObjectId * V))
  : list (option ObjectId * V) :=
  match obj_get k o with
  | Some _ => map (λ kv, if bool_decide (kv.1 = k) then (k, v) else kv) o
  | None => o ++ [(k, v)]
  end.

(** An update in place of the entry object [o[k]]. *)
Definition obj_alter {V} (f : V → V) (k : option ObjectId)
    (o : list (option ObjectId * V)) : list (option ObjectId * V) :=
  map (λ kv, if bool_decide (kv.1 = k) then (kv.1, f kv.2) else kv) o.

Record ProductCount := mkProductCount {
  pc_count : nat;
  pc_revenue : float
}.

Record ProductDetails := mkProductDetails {
  pd_name : string;
  pd_quantity : float;
  pd_totalSold : float
}.

(** An element of the answer: [{ productId, ...data, ...productDetails[productId] }]. *)
Record PopularProduct := mkPopularProduct {
  pop_productId : option ObjectId;
  pop_count : nat;
  pop_revenue : float;
  pop_details : option ProductDetails
}.

(** The body of the inner [forEach], on the two objects. *)
Definition count_item
    (acc : list (option ObjectId * ProductCount)
           * list (option ObjectId * ProductDetails))
    (item : BillLine)
  : list (option ObjectId * ProductCount) * list (option ObjectId * ProductDetails) :=
  let productId := line_productId item in
  let productCount := acc.1 in
  let productDetails := acc.2 in
  let created :=
    match obj_get productId productCount with
    | None =>
        (obj_set productId (mkProductCount 0 0%float) productCount,
         obj_set productId (mkProductDetails (line_productName item) 0%float 0%float)
           productDetails)
    | Some _ => (productCount, productDetails)
    end in
  let productCount := created.1 in
  let productDetails := created.2 in
  let productCount :=
    obj_alter (λ e, mkProductCount (pc_count e + 1) (pc_revenue e)) productId
      productCount in
  let productCount :=
    obj_alter (λ e, mkProductCount (pc_count e)
                      (Js.add (pc_revenue e) (line_totalPrice item))) productId
      productCount in
  let productDetails :=
    obj_alter (λ e, mkProductDetails (pd_name e)
                      (Js.add (pd_quantity e) (line_quantity item))
                      (pd_totalSold e)) productId productDetails in
  let productDetails :=
    obj_alter (λ e, mkProductDetails (pd_name e) (pd_quantity e)
                      (Js.add (pd_totalSold e) (line_totalPrice item))) productId
      productDetails in
  (productCount, productDetails).

(** [.sort((a, b) => b.count - a.count)]: descending by count, and stable. *)
Fixpoint insert_by_count (e : PopularProduct) (l : list PopularProduct)
  : list PopularProduct :=
  match l with
  | [] => [e]
  | x :: rest =>
      if (pop_count x <=? pop_count e)%nat then e :: x :: rest
      else x :: insert_by_count e rest
  end.

Definition sort_by_count (l : list PopularProduct) : list PopularProduct :=
  foldr insert_by_count [] l.

(** [l.slice(0, limit)]: a negative [limit] counts from the end. *)
Definition slice_to {A} (limit : Z) (l : list A) : list A :=
  if limit <? 0 then take (Z.to_nat (Z.of_nat (length l) + limit)) l
  else take (Z.to_nat limit) l.

(** [Bill.find({ userId })] *)
Definition Bill_find_userId (userId : ObjectId) (w : World) : list Bill :=
  filter (λ b, bill_userId b = userId) (bills w).

(** [getPopularProducts(userId, limit)] *)
Definition getPopularProducts (userId : ObjectId) (limit : Z) (w : World)
  : list PopularProduct :=
  let bills := Bill_find_userId userId w in
  let counted :=
    fold_left (λ acc bill, fold_left count_item (bill_items bill) acc) bills ([], []) in
  let productCount := counted.1 in
  let productDetails := counted.2 in
  let popular :=
    map (λ entry, mkPopularProduct entry.1 (pc_count entry.2) (pc_revenue entry.2)
                    (obj_get entry.1 productDetails)) productCount in
  slice_to limit (sort_by_count popular).

(** ** The bill routes: one bill, and the payment methods *)

(** The answers of the bill routes modelled below. *)
Inductive BillsResponse :=
  | BError (code : nat) (error : string)
  | BBill (data : Bill)
  | BUpdated (data : Bill)
  | BDeleted
  | BStats (data : Stats).

(** [try { body } catch (error) { res.status(500).json({ error: failure }) }] *)
Definition bills_route (failure : string) (body : Handler BillsResponse BillsResponse)
    (w : World) : BillsResponse * World :=
  match body w with
  | (Val r, w') => (r, w')
  | (Sent r, w') => (r, w')
  | (Thrown _, w') => (BError 500 failure, w')
  end.

(** [Bill.findOne({ _id: id, userId })] *)
Definition Bill_findOne_owned (id userId : ObjectId) (w : World) : option Bill :=
  find (λ b, bool_decide (bill_id b = id) && bool_decide (bill_userId b = userId))
    (bills w).

(** [Bill.findOne({ billNumber })] *)
Definition Bill_findOne_number (billNumber : string) (w : World) : option Bill :=
  find (λ b, bool_decide (bill_billNumber b = billNumber)) (bills w).

(** [Bill.deleteOne({ _id: id })]: the first document with that id goes. *)
Fixpoint remove_bill (id : ObjectId) (l : list Bill) : list Bill :=
  match l with
  | [] => []
  | b :: rest => if bool_decide (bill_id b = id) then rest else b :: remove_bill id rest
  end.

Definition replace_bill (b : Bill) (l : list Bill) : list Bill :=
  map (λ j, if bool_decide (bill_id j = bill_id b) then b else j) l.

Definition bill_set_notes (s : option string) (b : Bill) : Bill :=
  mkBill (bill_id b) (bill_userId b) (bill_billNumber b) (bill_items b)
    (bill_subtotal b) (bill_tax b) (bill_taxPercentage b) (bill_discount b)
    (bill_total b) (bill_paymentMethod b) (bill_paymentStatus b)
    (bill_amountReceived b) (bill_change b) s.

(** [GET /api/bills/:id] for the authenticated user [userId]. *)
Definition get_bill (id userId : ObjectId) : World → BillsResponse * World :=
  bills_route "Failed to fetch bill" (
    bill ← gets (Bill_findOne_owned id userId);
    match bill with
    | None => send (BError 404 "Bill not found")
    | Some bill => mret (BBill bill)
    end).

(** [PUT /api/bills/:id]. Of the four fields the route lets through, the
    bill documents here carry [notes]; the three customer contact fields are
    assigned the same way. *)
Definition put_bill (id userId : ObjectId) (notes : option string)
  : World → BillsResponse * World :=
  bills_route "Failed to update bill" (
    found ← gets (Bill_findOne_owned id userId);
    match found with
    | None => send (BError 404 "Bill not found")
    | Some bill =>
        (* Only allow updating certain fields *)
        let bill := if Js.truthy_str notes then bill_set_notes notes bill else bill in
        _ ← modify (λ w, set_bills (replace_bill bill (bills w)) w);
        (* Invalidate caches *)
        _ ← lift (billService.invalidateBillCache (JsId (bill_id bill)));
        mret (BUpdated bill)
    end).

(** [DELETE /api/bills/:id] *)
Definition delete_bill (id userId : ObjectId) : World → BillsResponse * World :=
  bills_route "Failed to delete bill" (
    found ← gets (Bill_findOne_owned id userId);
    match found with
    | None => send (BError 404 "Bill not found")
    | Some bill =>
        _ ← modify (λ w, set_bills (remove_bill id (bills w)) w);
        (* Invalidate caches *)
        _ ← lift (billService.invalidateBillCache (JsId (bill_id bill)));
        _ ← lift (billService.invalidateBillListCache (JsId userId));
        mret BDeleted
    end).

(** [GET /api/bills/search/by-number/:billNumber]: the route is public and
    takes no user. *)
Definition get_bill_by_number (billNumber : string) : World → BillsResponse * World :=
  bills_route "Failed to search bill" (
    bill ← gets (Bill_findOne_number billNumber);
    match bill with
    | None => send (BError 404 "Bill not found")
    | Some bill => mret (BBill bill)
    end).

(** [GET /api/bills/summary] without a date range, for the authenticated
    user [userId]. *)
Definition get_summary (userId : ObjectId) : World → BillsResponse * World :=
  bills_route "Failed to fetch summary" (
    bills ← gets (Bill_find_userId userId);
    (* Calculate statistics *)
    let stats := billService.calculateBillStats bills in
    mret (BStats stats)).

(** ** Vocabulary of the statements about the remaining code *)

(** The adjustment of a stored document by [delta]. *)
Definition adjusted (delta : Z) (inv : Inventory) : Inventory :=
  derive (inv_set_quantity (inv_quantity inv + delta) inv).

(** No inventory document is below zero. *)
Definition stock_nonneg (w : World) : Prop :=
  Forall (λ i, 0 ≤ inv_quantity i) (inventories w).

(** The product document built by [POST /api/inventory/register-barcode]
    for a barcode no product has yet. *)
Definition registered_product (body : RegisterBody) (id : ObjectId) : Product :=
  mkProduct id (default "" (reg_name body)) (default 0%Qc (reg_price body))
    (default "" (reg_category body)) (Some (Js.or_str (reg_brand body) ""))
    (reg_barcode body) (Some (Js.or_num (reg_quantity body) 0)) true.

(** The inventory document it builds for a barcode no inventory has yet. *)
Definition registered_inventory (body : RegisterBody) (id pid : ObjectId) : Inventory :=
  derive (mkInventory id (Some pid) (reg_barcode body)
            (Js.or_num (reg_quantity body) 0) 10
            (Js.or_str (reg_location body) "Main Store")
            (Js.or_str (reg_warehouse body) "Default") None InStock).

(** The collections once both documents are stored. *)
Definition registered (body : RegisterBody) (w : World) : World :=
  mkWorld
    (inventories w ++ [registered_inventory body (S (next_oid w)) (next_oid w)])
    (products w ++ [registered_product body (next_oid w)])
    (bills w) (S (S (next_oid w))) (redis w).

(** One of the four required fields of a registration is missing or falsy. *)
Definition register_rejected (body : RegisterBody) : Prop :=
  Js.truthy_str (reg_barcode body) = false ∨ Js.truthy_str (reg_name body) = false
  ∨ Js.truthy_money (reg_price body) = false
  ∨ Js.truthy_str (reg_category body) = false.

(** Product ids were drawn from the counter. *)
Definition product_oid_fresh (w : World) : Prop :=
  Forall (λ p, (prod_id p < next_oid w)%nat) (products w).

(** The cache once [product] is stored under its barcode key. *)
Definition cached_by_barcode (barcode : string) (product : Product) (w : World) : World :=
  set_redis (<["barcode:" +:+ barcode := (cacheService.EXPIRY_BARCODE, SnapProduct product)]>
               (redis w)) w.

(** The catalog once [product] is marked inactive. *)
Definition deactivated (product : Product) (w : World) : World :=
  set_products (replace_prod (prod_set_active false product) (products w)) w.

(** [Product.findOne({ barcode, active: true })] *)
Definition Product_findOne_active (barcode : string) (w : World) : option Product :=
  find (λ p, bool_decide (prod_barcode p = Some barcode) && prod_active p) (products w).

(** The cache without the three entries of a product: its own, the one
    under its barcode, and the product list. *)
Definition product_invalidated (id : ObjectId) (barcode : string) (w : World) : World :=
  set_redis (delete "products:list"
               (delete ("barcode:" +:+ barcode)
                  (delete ("product:" +:+ pretty id) (redis w)))) w.

(** The line items of the bills of a user, in the order [getPopularProducts]
    visits them. *)
Definition sold_lines (userId : ObjectId) (w : World) : list BillLine :=
  concat (bill_items <$> Bill_find_userId userId w).

(** The lines that name a given product ([None]: no product). *)
Definition lines_of (k : option ObjectId) (lines : list BillLine) : list BillLine :=
  filter (λ l, line_productId l = k) lines.

Definition sold_count (k : option ObjectId) (lines : list BillLine) : nat :=
  length (lines_of k lines).

Definition sold_revenue (k : option ObjectId) (lines : list BillLine) : float :=
  double_sum (line_totalPrice <$> lines_of k lines).

Definition sold_quantity (k : option ObjectId) (lines : list BillLine) : float :=
  double_sum (line_quantity <$> lines_of k lines).

(** The two objects of [getPopularProducts] agree with the lines seen so
    far: one entry per product named, holding its counts and sums. *)
Definition counted (lines : list BillLine)
    (productCount : list (option ObjectId * ProductCount))
    (productDetails : list (option ObjectId * ProductDetails)) : Prop :=
  NoDup productCount.*1
  ∧ productDetails.*1 = productCount.*1
  ∧ (∀ k, k ∈ productCount.*1 ↔ k ∈ line_productId <$> lines)
  ∧ (∀ k c, (k, c) ∈ productCount →
       c = mkProductCount (sold_count k lines) (sold_revenue k lines))
  ∧ (∀ k d, (k, d) ∈ productDetails →
       Some (pd_name d) = line_productName <$> head (lines_of k lines)
       ∧ pd_quantity d = sold_quantity k lines
       ∧ pd_totalSold d = sold_revenue k lines).

(** Earlier in the list means sold on at least as many lines. *)
Definition by_count_desc (a b : PopularProduct) : Prop :=
  (pop_count b ≤ pop_count a)%nat.

(** The entry of the answer built from an entry of [productCount]. *)
Definition popular_entry (productDetails : list (option ObjectId * ProductDetails))
    (entry : option ObjectId * ProductCount) : PopularProduct :=
  mkPopularProduct entry.1 (pc_count entry.2) (pc_revenue entry.2)
    (obj_get entry.1 productDetails).

(** The bills without the one with the id of [b]. *)
Definition without_bill (b : Bill) (w : World) : World :=
  set_bills (filter (λ x, bill_id x ≠ bill_id b) (bills w)) w.

(** The bill after [PUT /api/bills/:id] with [notes] in the body. *)
Definition noted (notes : option string) (b : Bill) : Bill :=
  if Js.truthy_str notes then bill_set_notes notes b else b.

(** Ids and bill numbers of the stored bills are unique. *)
Definition bills_indexed (w : World) : Prop :=
  NoDup (bill_id <$> bills w) ∧ NoDup (bill_billNumber <$> bills w).


(** The stored document after [PUT /api/inventory/:id] with [body]. *)
Definition updated (body : InventoryBody) (inv : Inventory) : Inventory :=
  derive (Inventory_update body inv).


(** The payment methods of the bill schema. *)
Definition PaymentMethod_all : list PaymentMethod := [Cash; Card; UPI; Check].

(** The bills a summary attributes to the payment methods, added up over
    the methods. *)
Definition breakdown_bills (stats : Stats) : nat :=
  foldr (λ m n, from_option bd_count 0%nat (paymentMethodBreakdown stats !! m) + n)%nat
    0%nat PaymentMethod_all.


(** ** Sample worlds and requests used to exercise the handlers *)

Module Sample.

(** One product with barcode B1 and its inventory of 12 units, reorder
    threshold 10. *)
Definition chips : Product :=
  mkProduct 0%nat "Chips" (Q2Qc 10) "Snacks" None (Some "B1") (Some 12) true.

Definition chips_stock : Inventory :=
  mkInventory 1%nat (Some 0%nat) (Some "B1") 12 10 "Main Store" "Default" None
    InStock.

Definition shop : World := mkWorld [chips_stock] [chips] [] 2%nat ∅.

(** [POST /register-barcode] for a new product with 3 units. *)
Definition register_milk : RegisterBody :=
  mkRegisterBody (Some "B2") (Some "Milk") (Some (Q2Qc 3)) (Some "Dairy") None
    (Some 3) None None.


(** The product is read by barcode (which caches it), then three units are
    added to its inventory. *)
Definition read_then_restock : World :=
  (put_adjust_quantity 1%nat (Some 3)
     (get_product_by_barcode "B1" shop).2).2.

(** A valid sale of two packets of chips, paid in cash with a 50 note. *)
Definition sale : BillBody :=
  mkBillBody
    (Some [mkBillLine (Some 0%nat) "Chips" (Js.Num 2) (Js.Num 10) (Js.Num 20)])
    (Js.Num 20) (Js.Num 1) Js.Absent Js.Absent (Js.Num 21) (Some "Cash")
    (Js.Num 50) None.

(** The bill that sale produces at clock reading 1000 for user 7. *)
Definition sale_bill : Bill :=
  mkBill 2%nat 7%nat "BILL-1000"
    [mkBillLine (Some 0%nat) "Chips" (Js.Num 2) (Js.Num 10) (Js.Num 20)]
    (Js.Num 20) (Js.Num 1) (Js.Num 5) (Js.Num 0) (Js.Num 21) Cash Completed
    (Js.Num 50) (Js.Num 29) None.

(** A stored bill of a given total and tax, paid by a given method. *)
Definition bill_of (id : ObjectId) (total tax : Js.Numeric) (m : PaymentMethod)
  : Bill :=
  mkBill id 7%nat ("BILL-" +:+ pretty id) [] total tax (Js.Num 5) (Js.Num 0) total m
    Completed Js.Absent (Js.Num 0) None.

(** The shop once that bill is on file. *)
Definition shop_after_sale : World :=
  mkWorld [chips_stock] [chips] [sale_bill] 3%nat ∅.

(** A full update that only changes the reorder threshold. *)
Definition threshold_only : InventoryBody :=
  mkInventoryBody None None None (Some 5) None None None.

(** A bill with an unknown barcode, an item asking for more than is in
    stock, and an item that can be served. *)
Definition mixed_bill : list BillItem :=
  [mkBillItem (Some "B404") None 1 (Some "Ghost");
   mkBillItem (Some "B1") None 20 (Some "Chips");
   mkBillItem (Some "B1") None 2 (Some "Chips")].

(** A catalog with the chips product and no inventory yet. *)
Definition catalog : World := mkWorld [] [chips] [] 1%nat ∅.

(** [POST /api/inventory] of [q] chips under barcode B1. *)
Definition stock_chips (q : Z) : InventoryBody :=
  mkInventoryBody (Some 0%nat) (Some "B1") (Some q) None None None None.

(** A restock of 5 that also asks for a reorder threshold of 0. *)
Definition restock_threshold_zero : InventoryBody :=
  mkInventoryBody None (Some "B1") (Some 5) (Some 0) None None None.

(** A first stocking that gives a barcode and no product. *)
Definition barcode_only : InventoryBody :=
  mkInventoryBody None (Some "B9") (Some 5) None None None None.

End Sample.

(** * Verification *)

(** ** Composition rules for [preserves] *)

Section Preservation.
Context (P : World → World → Prop) `{!Reflexive P, !Transitive P}.

Lemma preserves_ret {R A} (a : A) : preserves P (mret a : Handler R A).
Proof. intros w. reflexivity. Qed.

Lemma preserves_send {R A} (r : R) : preserves P (send r : Handler R A).
Proof. intros w. reflexivity. Qed.

Lemma preserves_throw {R A} e : preserves P (throw e : Handler R A).
Proof. intros w. reflexivity. Qed.

Lemma preserves_gets {R A} (f : World → A) : preserves P (gets f : Handler R A).
Proof. intros w. reflexivity. Qed.

Lemma preserves_bind {R A B} (m : Handler R A) (f : A → Handler R B) :
  preserves P m → (∀ a, preserves P (f a)) → preserves P (m ≫= f).
Proof.
  intros Hm Hf w. unfold mbind, Handler_bind.
  specialize (Hm w). destruct (m w) as [[a|e|r] w']; simpl in *; try done.
  by etrans; [|apply Hf].
Qed.

Lemma preserves_let {R A B} (v : B) (f : B → Handler R A) :
  (∀ x, x = v → preserves P (f x)) → preserves P (let x := v in f x).
Proof. intros H. by apply H. Qed.

Lemma preserves_lift {R A} (f : World → A * World) :
  (∀ w, P w (f w).2) → preserves P (lift f : Handler R A).
Proof. intros Hf w. unfold lift. specialize (Hf w). by destruct (f w). Qed.

Lemma preserves_route failure body :
  preserves P body → ∀ w, P w (route failure body w).2.
Proof.
  intros Hb w. unfold route. specialize (Hb w).
  by destruct (body w) as [[a|e|r] w'].
Qed.

Lemma preserves_guarded {A} (fallback : A) body :
  preserves P body → ∀ w, P w (guarded fallback body w).2.
Proof.
  intros Hb w. unfold guarded. specialize (Hb w).
  by destruct (body w) as [[a|e|[]] w'].
Qed.
End Preservation.

(** Walks down a handler: binds, branches and [let]s are taken apart, and the
    leaves are closed by the rules above or by [prim], the tactic for the
    store primitives of the relation at hand. *)
Ltac preserve_side :=
  match goal with
  | |- Reflexive _ => typeclasses eauto
  | |- Transitive _ => typeclasses eauto
  | _ => assumption
  end.

Ltac preserve_step prim :=
  first
    [ apply preserves_ret; preserve_side
    | apply preserves_send; preserve_side
    | apply preserves_throw; preserve_side
    | apply preserves_gets; preserve_side
    | prim
    | apply preserves_bind; [typeclasses eauto .. | | intros ?]
    | match goal with
      | |- preserves ?P (match ?x with _ => _ end) => destruct x
      | |- preserves ?P (let x := ?v in @?f x) =>
          refine (preserves_let P v f _); intros ? ?; cbv beta
      end ].

Ltac preserve prim := repeat (preserve_step prim).

Ltac enter_route h P :=
  cbv delta [h]; cbv beta; refine (preserves_route P _ _ _ _).

(** ** Redis is out of reach of the collection primitives *)

Global Instance same_redis_refl : Reflexive same_redis.
Proof. by intros w. Qed.

Global Instance same_redis_trans : Transitive same_redis.
Proof. unfold same_redis. intros w1 w2 w3 H1 H2. congruence. Qed.

Lemma new_oid_same_redis R : preserves same_redis (new_oid (R:=R)).
Proof. by intros w. Qed.

Lemma Inventory_save_same_redis R isNew i :
  preserves same_redis (Inventory_save (R:=R) isNew i).
Proof. intros w. unfold Inventory_save. by repeat case_match. Qed.

Lemma Product_save_same_redis R isNew p :
  preserves same_redis (Product_save (R:=R) isNew p).
Proof. intros w. unfold Product_save. by repeat case_match. Qed.

Lemma findByIdAndUpdate_same_redis R id body :
  preserves same_redis (Inventory_findByIdAndUpdate (R:=R) id body).
Proof. intros w. unfold Inventory_findByIdAndUpdate. by repeat case_match. Qed.

Ltac redis_prim :=
  first [ apply new_oid_same_redis | apply Inventory_save_same_redis
        | apply Product_save_same_redis | apply findByIdAndUpdate_same_redis ].

Lemma deduct_item_same_redis item w : same_redis w (deduct_item item w).2.
Proof.
  assert (preserves same_redis (deduct_item_try item)) as H.
  { cbv delta [deduct_item_try]; cbv beta. preserve redis_prim. }
  unfold deduct_item. specialize (H w).
  by destruct (deduct_item_try item w) as [[a|e|[]] w'].
Qed.

Lemma deduct_loop_same_redis items ds es w :
  same_redis w (deduct_loop items ds es w).2.
Proof.
  revert ds es w. induction items as [|[item|] rest IH]; intros ds es w; [done| |done].
  simpl. unfold mbind, Handler_bind, lift. pose proof (deduct_item_same_redis item w) as H.
  destruct (deduct_item item w) as [[d|e] w']; simpl in H;
    (etrans; [exact H | apply IH]).
Qed.

(** ** Collections: finding and rewriting documents *)

Lemma Inventory_findById_Some id w i :
  Inventory_findById id w = Some i → i ∈ inventories w ∧ inv_id i = id.
Proof.
  unfold Inventory_findById. intros [Hin Hid]%find_some.
  split; [by apply list_elem_of_In | by apply bool_decide_eq_true in Hid].
Qed.

Lemma Inventory_findOne_barcode_Some b w i :
  Inventory_findOne_barcode b w = Some i → i ∈ inventories w ∧ inv_barcode i = Some b.
Proof.
  unfold Inventory_findOne_barcode. intros [Hin Hb]%find_some.
  split; [by apply list_elem_of_In | by apply bool_decide_eq_true in Hb].
Qed.

Lemma Inventory_findOne_productId_Some p w i :
  Inventory_findOne_productId p w = Some i →
  i ∈ inventories w ∧ inv_productId i = Some p.
Proof.
  unfold Inventory_findOne_productId. intros [Hin Hb]%find_some.
  split; [by apply list_elem_of_In | by apply bool_decide_eq_true in Hb].
Qed.

Lemma Product_findById_Some id w p :
  Product_findById id w = Some p → p ∈ products w ∧ prod_id p = id.
Proof.
  unfold Product_findById. intros [Hin Hid]%find_some.
  split; [by apply list_elem_of_In | by apply bool_decide_eq_true in Hid].
Qed.

Lemma elem_of_replace_inv i x l :
  i ∈ replace_inv x l → i = x ∨ (i ∈ l ∧ inv_id i ≠ inv_id x).
Proof.
  unfold replace_inv. intros (j & -> & Hj)%list_elem_of_fmap.
  case_bool_decide; auto.
Qed.

Lemma replace_inv_length x l : length (replace_inv x l) = length l.
Proof. apply length_map. Qed.





(** ** The schema check is an invariant *)

Global Instance keeps_validated_refl : Reflexive keeps_validated.
Proof. intros w H. exact H. Qed.

Global Instance keeps_validated_trans : Transitive keeps_validated.
Proof. unfold keeps_validated. intros w1 w2 w3 H1 H2. auto. Qed.

Lemma validated_replace x l :
  is_Some (inv_productId x) →
  Forall (λ i, is_Some (inv_productId i)) l →
  Forall (λ i, is_Some (inv_productId i)) (replace_inv x l).
Proof.
  intros Hx Hl. apply Forall_forall. intros i [->|[Hi _]]%elem_of_replace_inv; [done|].
  by eapply Forall_forall in Hl.
Qed.

Lemma new_oid_validated R : preserves keeps_validated (new_oid (R:=R)).
Proof. intros w H. exact H. Qed.

Lemma Inventory_save_validated R isNew i :
  preserves keeps_validated (Inventory_save (R:=R) isNew i).
Proof.
  intros w Hw. unfold Inventory_save.
  destruct (inv_productId i) as [pid|] eqn:Hp; [|done].
  repeat case_match; simpl; try done; unfold validated; simpl.
  - apply Forall_app. split; [done|]. apply Forall_singleton. by rewrite Hp.
  - apply validated_replace; [by rewrite Hp | done].
Qed.

Lemma Product_save_validated R isNew p :
  preserves keeps_validated (Product_save (R:=R) isNew p).
Proof. intros w Hw. unfold Product_save. by repeat case_match. Qed.

Lemma findByIdAndUpdate_validated R id body :
  preserves keeps_validated (Inventory_findByIdAndUpdate (R:=R) id body).
Proof.
  intros w Hw. unfold Inventory_findByIdAndUpdate.
  destruct (Inventory_findById id w) as [i|] eqn:Hi; [|done].
  apply Inventory_findById_Some in Hi as [Hin _].
  unfold validated in *; simpl. apply validated_replace; [|done].
  eapply Forall_forall in Hw; [|exact Hin].
  unfold Inventory_update. by repeat case_match.
Qed.

Ltac validated_prim :=
  first [ apply new_oid_validated | apply Inventory_save_validated
        | apply Product_save_validated | apply findByIdAndUpdate_validated ].

Lemma deduct_item_validated item w : keeps_validated w (deduct_item item w).2.
Proof.
  assert (preserves keeps_validated (deduct_item_try item)) as H.
  { cbv delta [deduct_item_try]; cbv beta. preserve validated_prim. }
  unfold deduct_item. specialize (H w).
  by destruct (deduct_item_try item w) as [[a|e|[]] w'].
Qed.



(** ** Every write of an inventory document carries the derived status *)

Global Instance writes_derived_refl : Reflexive writes_derived.
Proof. intros w i Hi. by left. Qed.

Global Instance writes_derived_trans : Transitive writes_derived.
Proof.
  intros w1 w2 w3 H12 H23 i Hi.
  destruct (H23 i Hi) as [Hi2|Hd]; [by apply H12 | by right].
Qed.

Lemma status_rule_eq i :
  (if inv_quantity i =? 0 then inv_set_status OutOfStock i
   else if inv_quantity i <=? inv_minStock i then inv_set_status LowStock i
   else inv_set_status InStock i) = derive i.
Proof. unfold derive, deriveStatus. by repeat case_match. Qed.

Lemma derive_status_derived i : status_derived (derive i).
Proof. reflexivity. Qed.











(** ** Reachable worlds *)




(** ** C1, C4, C6: status derivation and cache invalidation *)








(** X19. No inventory route writes to Redis: after create-or-restock,
    barcode registration, full update, adjustQuantity or deductForBill, on any
    request and any store, Redis holds exactly the entries it held before. *)
Theorem inventory_mutations_leave_cache_untouched (op : Op) (w : World) :
  redis (run op w).2 = redis w.
Proof.
  change (same_redis w (run op w).2).
  destruct op as [body|body|id body|id quantity|billItems]; simpl.
  - enter_route post_inventory same_redis. preserve redis_prim.
  - enter_route post_register_barcode same_redis. preserve redis_prim.
  - enter_route put_inventory same_redis. preserve redis_prim.
  - enter_route put_adjust_quantity same_redis. preserve redis_prim.
  - enter_route post_deduct_bill same_redis.
    preserve ltac:(intros ?; apply deduct_loop_same_redis).
Qed.

(** C6, on the code. The product with barcode B1 is read, which caches it
    with its stock of 12, and three units are then added to its inventory by
    [PUT /:id/adjust-quantity]. The adjustment writes the inventory and the
    product (both at 15) and calls neither [invalidateProductCache] nor
    [invalidateInventoryCache]: the entry of the barcode is still there, and
    the next read of the product by barcode is answered from it, with the
    stock of 12. *)
Theorem cache_entry_survives_adjustment :
  redis (get_product_by_barcode "B1" Sample.shop).2 !! "barcode:B1"
    = Some (86400, SnapProduct Sample.chips)
  ∧ Sample.read_then_restock
    = (put_adjust_quantity 1%nat (Some 3)
         (get_product_by_barcode "B1" Sample.shop).2).2
  ∧ redis Sample.read_then_restock !! "barcode:B1"
    = Some (86400, SnapProduct Sample.chips)
  ∧ prod_stock Sample.chips = Some 12
  ∧ prod_stock <$> Product_findById 0%nat Sample.read_then_restock = Some (Some 15)
  ∧ inv_quantity <$> Inventory_findById 1%nat Sample.read_then_restock = Some 15
  ∧ (get_product_by_barcode "B1" Sample.read_then_restock).1
    = RCachedProduct (SnapProduct Sample.chips).
Proof. vm_compute. done. Qed.

(** ** C10: the bill cache is inert *)

(** For contrast: in [cacheService], which imports the client, the same
    function shape does write, and the invalidation does delete. *)
Lemma cacheService_cacheProduct_writes id v w :
  cacheService.cacheProduct (JsId id) (Some v) w
  = (true, set_redis (<["product:" +:+ pretty id := (3600, v)]> (redis w)) w).
Proof. reflexivity. Qed.

Lemma cacheService_invalidate_then_miss id v w :
  let w1 := (cacheService.cacheProduct (JsId id) (Some v) w).2 in
  let w2 := (cacheService.invalidateProductCache (JsId id) None w1).2 in
  (cacheService.getCachedProduct (JsId id) w1).1 = Some v
  ∧ (cacheService.getCachedProduct (JsId id) w2).1 = None.
Proof.
  cbv zeta. split.
  - unfold cacheService.getCachedProduct, cacheService.cacheProduct, guarded. simpl.
    by rewrite lookup_insert_eq.
  - unfold cacheService.getCachedProduct, cacheService.cacheProduct,
      cacheService.invalidateProductCache, guarded. simpl.
    rewrite lookup_delete_ne by done. by rewrite lookup_delete_eq.
Qed.

(** C10. [billService] never binds [redisClient]. Every one of its twelve
    cache functions therefore raises a ReferenceError inside its own [try],
    catches it, and returns [false] (writes, invalidations) or [null] (reads)
    for every input, leaving Redis and the rest of the world as they were: the
    caller gets an ordinary return value, reads always miss, and no key is
    ever deleted. *)
Theorem bill_cache_functions_are_inert
    (userId billId billNumber statsKey : JsArg)
    (bills billData statsData : option Snapshot) (w : World) :
  Redis.lookup_ident "redisClient" billService.scope = None
  ∧ billService.cacheBillList userId bills w = (false, w)
  ∧ billService.getCachedBillList userId w = (None, w)
  ∧ billService.cacheBill billId billData w = (false, w)
  ∧ billService.getCachedBill billId w = (None, w)
  ∧ billService.cacheBillByNumber billNumber billData w = (false, w)
  ∧ billService.getCachedBillByNumber billNumber w = (None, w)
  ∧ billService.cacheBillStats statsKey statsData w = (false, w)
  ∧ billService.getCachedBillStats statsKey w = (None, w)
  ∧ billService.invalidateBillListCache userId w = (false, w)
  ∧ billService.invalidateBillCache billId w = (false, w)
  ∧ billService.invalidateBillByNumberCache billNumber w = (false, w)
  ∧ billService.invalidateBillStatsCache w = (false, w).
Proof.
  assert (∀ R, Redis.client (R:=R) billService.scope w
               = (Thrown (ReferenceError "redisClient"), w)) as Hclient
    by reflexivity.
  split; [reflexivity|].
  repeat split;
    unfold billService.cacheBillList, billService.getCachedBillList,
      billService.cacheBill, billService.getCachedBill,
      billService.cacheBillByNumber, billService.getCachedBillByNumber,
      billService.cacheBillStats, billService.getCachedBillStats,
      billService.invalidateBillListCache, billService.invalidateBillCache,
      billService.invalidateBillByNumberCache,
      billService.invalidateBillStatsCache, guarded,
      Redis.setEx, Redis.get, Redis.del, Redis.keys, mbind, Handler_bind;
    cbv zeta; by rewrite Hclient.
Qed.

(** ** C9: bill statistics *)



Lemma sub_nan_r (x : float) : (x - nan)%float = nan.
Proof.
  apply Prim2SF_inj. rewrite sub_spec. change (Prim2SF nan) with S754_nan.
  unfold SF64sub, SFsub. by destruct (Prim2SF x).
Qed.




(** What one bill does to the entry of a payment method. *)
Lemma tally_lookup acc bill m :
  billService.tally acc bill !! m
  = if decide (bill_paymentMethod bill = m)
    then Some (mkBreakdown (from_option bd_count 0%nat (acc !! m) + 1)
                 (from_option bd_total 0%float (acc !! m)
                  + Js.ToNumber (bill_total bill))%float)
    else acc !! m.
Proof.
  unfold billService.tally. cbv zeta.
  destruct (decide (bill_paymentMethod bill = m)) as [->|Hne].
  - rewrite !lookup_alter_eq.
    destruct (acc !! m) as [e|] eqn:He; simpl.
    + by rewrite He.
    + by rewrite lookup_insert_eq.
  - rewrite !lookup_alter_ne by done.
    destruct (acc !! bill_paymentMethod bill); [done|].
    by rewrite lookup_insert_ne.
Qed.

(** The entry of a method after a run of bills: the bills paid that way are
    counted, and their totals added in their order to what the entry held. *)
Lemma tally_fold l acc m :
  fold_left billService.tally l acc !! m
  = match paid_by m l with
    | [] => acc !! m
    | bs => Some (mkBreakdown (from_option bd_count 0%nat (acc !! m) + length bs)
                    (fold_left (λ s v, (s + Js.ToNumber v)%float) (bill_total <$> bs)
                       (from_option bd_total 0%float (acc !! m))))
    end.
Proof.
  revert acc. induction l as [|b l IH]; intros acc; [done|].
  simpl. rewrite IH, tally_lookup. unfold paid_by. rewrite filter_cons.
  destruct (decide (bill_paymentMethod b = m)) as [Hm|Hm]; [|done].
  simpl. destruct (filter _ l) as [|b' bs] eqn:Hf; simpl; do 2 f_equal; lia.
Qed.



(** Two cash bills of 10 and 5 and one card bill of 6. *)
Example calculateBillStats_sample :
  let stats :=
    billService.calculateBillStats
      [Sample.bill_of 1%nat (Js.Num 10) (Js.Num 0) Cash;
       Sample.bill_of 2%nat (Js.Num 6) (Js.Num 0) Card;
       Sample.bill_of 3%nat (Js.Num 5) (Js.Num 0) Cash] in
  totalBills stats = 3%nat
  ∧ totalRevenue stats = 21%float ∧ averageBill stats = 7%float
  ∧ paymentMethodBreakdown stats !! Cash = Some (mkBreakdown 2 15%float)
  ∧ paymentMethodBreakdown stats !! Card = Some (mkBreakdown 1 6%float)
  ∧ paymentMethodBreakdown stats !! UPI = None.
Proof. cbv zeta. repeat split; vm_compute; reflexivity. Qed.


(** ** C7: the unfiltered inventory list and its cache *)

(** C7, on the code. An unfiltered [GET /api/inventory] reads the key
    "inventory:undefined" and, on a miss, answers from the store without
    storing anything: [cacheInventory] receives the list as its id argument
    and [undefined] as the data, which the client refuses. The world after the
    read is the world before it, so the next unfiltered read misses again. A
    read with any filter goes to the store and leaves the cache alone. *)
Theorem unfiltered_list_is_never_cached
    (find : option string → option string → option string → World → list Inventory)
    (toString : Inventory → string) (w : World) :
  get_inventory find toString None None None w
  = (match snd <$> redis w !! "inventory:undefined" with
     | Some data => RCachedInventory data
     | None => RInventoryList (find None None None w)
     end, w)
  ∧ ∀ warehouse status search,
      Js.truthy_str warehouse || Js.truthy_str status || Js.truthy_str search = true →
      get_inventory find toString warehouse status search w
      = (RInventoryList (find warehouse status search w), w).
Proof.
  split.
  - unfold get_inventory, route, mbind, Handler_bind, lift,
      cacheService.getCachedInventory, cacheService.cacheInventory, guarded.
    simpl. change ("inventory:" +:+ "undefined") with "inventory:undefined".
    destruct (redis w !! "inventory:undefined") as [[ttl data]|]; done.
  - intros warehouse status search Hfilter.
    unfold get_inventory, route, mbind, Handler_bind. cbv zeta.
    destruct (Js.truthy_str warehouse), (Js.truthy_str status),
      (Js.truthy_str search); done.
Qed.

(** Two unfiltered reads in a row on the sample shop, whose cache is empty:
    both are answered from the store, and the cache is still empty. *)
Example unfiltered_list_read_twice find toString :
  let first := get_inventory find toString None None None Sample.shop in
  let second := get_inventory find toString None None None first.2 in
  first.1 = RInventoryList (find None None None Sample.shop)
  ∧ redis first.2 = ∅
  ∧ second.1 = RInventoryList (find None None None Sample.shop).
Proof. done. Qed.

(** ** C5: the stock mirror *)

(** C5, on the code. On the sample shop (12 chips, stock 12):
    - a full update whose body carries no quantity leaves the inventory
      quantity at 12 and assigns the (undefined) request quantity to the
      product's stock, which ends up unset;
    - a restock of 5 addressed by barcode alone brings the inventory to 17
      and never looks at the product, whose stock stays 12;
    - the same store adjusted by -3 through adjust-quantity, which mirrors
      the document's own quantity into the product the document points to,
      has both at 9. *)
Theorem stock_mirror_diverges :
  let updated := (put_inventory 1%nat Sample.threshold_only Sample.shop).2 in
  let restocked :=
    (post_inventory (mkInventoryBody None (Some "B1") (Some 5) None None None None)
       Sample.shop).2 in
  let adjusted := (put_adjust_quantity 1%nat (Some (-3)) Sample.shop).2 in
  prod_stock <$> Product_findById 0%nat Sample.shop = Some (Some 12)
  ∧ inv_quantity <$> Inventory_findById 1%nat updated = Some 12
  ∧ prod_stock <$> Product_findById 0%nat updated = Some None
  ∧ inv_quantity <$> Inventory_findById 1%nat restocked = Some 17
  ∧ prod_stock <$> Product_findById 0%nat restocked = Some (Some 12)
  ∧ inv_quantity <$> Inventory_findById 1%nat adjusted = Some 9
  ∧ prod_stock <$> Product_findById 0%nat adjusted = Some (Some 9).
Proof. vm_compute. done. Qed.

(** ** C8: bill creation *)

Lemma billNumber_free n (l : list Bill) :
  existsb (λ b, bool_decide (bill_billNumber b = n)) l = false
  ↔ ∀ b, b ∈ l → bill_billNumber b ≠ n.
Proof.
  induction l as [|b l IH]; simpl.
  - split; [|done]. intros _ b Hb. by apply elem_of_nil in Hb.
  - rewrite orb_false_iff, IH, bool_decide_eq_false. split.
    + intros [Hb Hl] b' [->|Hb']%elem_of_cons; auto.
    + intros H. split; [apply H; by left | intros b' Hb'; apply H; by right].
Qed.

(** What [post_bill] does, by cases on the request and on the store. The two
    cache invalidations after the save return [false] and change nothing. *)
Lemma post_bill_cases now userId body w :
  (bill_rejected body ∧ ∃ msg, post_bill now userId body w = (RError 400 msg, w))
  ∨ (¬ bill_rejected body
     ∧ match PaymentMethod_parse (default "" (bb_paymentMethod body)) with
       | None =>
           post_bill now userId body w
           = (RError 500 "Failed to create bill", bump_oid w)
       | Some m =>
           let bill := new_bill now userId (next_oid w) body m in
           if negb (Bill_castable bill)
              || existsb (λ b, bool_decide (bill_billNumber b = generateBillNumber now))
                   (bills w)
           then post_bill now userId body w
                = (RError 500 "Failed to create bill", bump_oid w)
           else post_bill now userId body w
                = (RBill bill, set_bills (bills w ++ [bill]) (bump_oid w))
       end).
Proof.
  assert (∀ m, mkBill (next_oid w) userId (generateBillNumber now)
                 (default [] (bb_items body)) (bb_subtotal body) (bb_tax body)
                 (Js.or_default (Js.or_default (bb_taxPercentage body) 5) 5)
                 (Js.or_default (bb_discount body) 0) (bb_total body) m Completed
                 (bb_amountReceived body)
                 (Js.Num (if Js.truthy (bb_amountReceived body)
                          then Js.sub (bb_amountReceived body) (bb_total body)
                          else 0%float))
                 (bb_notes body)
               = new_bill now userId (next_oid w) body m) as Hbill.
  { intros m. unfold new_bill, change_due, Js.sub, generateBillNumber.
    by destruct (bb_taxPercentage body), (bb_discount body). }
  unfold bill_rejected, post_bill, route, mbind, Handler_bind, new_oid, Bill_save,
    lift, send, mret, Handler_ret. cbv zeta.
  destruct (bb_items body) as [[|line items]|] eqn:Hitems; cbn [negb].
  - left. split; [auto|]. by eexists.
  - destruct (Js.truthy_str (bb_paymentMethod body)) eqn:Hpm; cbn [negb].
    + right. split; [intros [?|[?|?]]; done|].
      destruct (PaymentMethod_parse _) as [m|]; [|done].
      cbn [default next_oid bump_oid bills]. cbn [default] in Hbill.
      rewrite (Hbill m).
      destruct (Bill_castable _); cbn [negb orb]; [|done].
      change (bill_billNumber (new_bill now userId (next_oid w) body m))
        with (generateBillNumber now).
      by destruct (existsb _ _).
    + left. split; [auto|]. by eexists.
  - left. split; [auto|]. by eexists.
Qed.

(** X20. [POST /api/bills], case by case. The request is answered with the
    validation error (400) exactly when items is missing or empty or the
    payment method is absent or empty, and then nothing is stored. A request
    that passes, names a payment method of the schema, carries numbers that
    the schema's cast accepts and arrives at a clock reading whose number
    'BILL-<now>' no stored bill carries, stores one new bill with that
    number, paymentStatus Completed and the change that is due. When a stored
    bill already carries that number the request fails with a 500 and the
    bills are left as they were: nothing is overwritten and nothing is tried
    again. A payment method outside the schema's enum fails the same way, and
    so does an amount received without a total, whose change is NaN. Bill
    numbers that were pairwise distinct stay so. *)
Theorem createBill_spec (now : Z) (userId : ObjectId) (body : BillBody) (w : World) :
  let r := post_bill now userId body w in
  ((∃ msg, r.1 = RError 400 msg) ↔ bill_rejected body)
  ∧ (bill_rejected body → bills r.2 = bills w)
  ∧ (∀ m, ¬ bill_rejected body →
          PaymentMethod_parse (default "" (bb_paymentMethod body)) = Some m →
          Bill_castable (new_bill now userId (next_oid w) body m) = true →
          (∀ b, b ∈ bills w → bill_billNumber b ≠ generateBillNumber now) →
          r.1 = RBill (new_bill now userId (next_oid w) body m)
          ∧ bills r.2 = (bills w ++ [new_bill now userId (next_oid w) body m])%list
          ∧ bill_billNumber (new_bill now userId (next_oid w) body m)
            = generateBillNumber now
          ∧ bill_paymentStatus (new_bill now userId (next_oid w) body m) = Completed
          ∧ bill_total (new_bill now userId (next_oid w) body m) = bb_total body
          ∧ bill_change (new_bill now userId (next_oid w) body m)
            = Js.Num (if Js.truthy (bb_amountReceived body)
                      then Js.ToNumber (bb_amountReceived body)
                           - Js.ToNumber (bb_total body)
                      else 0)%float)
  ∧ (¬ bill_rejected body →
     (∃ b, b ∈ bills w ∧ bill_billNumber b = generateBillNumber now) →
     r.1 = RError 500 "Failed to create bill" ∧ bills r.2 = bills w)
  ∧ (¬ bill_rejected body →
     PaymentMethod_parse (default "" (bb_paymentMethod body)) = None →
     r.1 = RError 500 "Failed to create bill" ∧ bills r.2 = bills w)
  ∧ (¬ bill_rejected body →
     Js.truthy (bb_amountReceived body) = true → bb_total body = Js.Absent →
     r.1 = RError 500 "Failed to create bill" ∧ bills r.2 = bills w)
  ∧ (NoDup (bill_billNumber <$> bills w) → NoDup (bill_billNumber <$> bills r.2)).
Proof.
  cbv zeta.
  destruct (post_bill_cases now userId body w) as [[Hrej [msg Hr]]|[Hok Hr]].
  { rewrite Hr. simpl. split_and!; try done. split; [done | eauto]. }
  assert (¬ ∃ msg, (post_bill now userId body w).1 = RError 400 msg) as Hno400.
  { destruct (PaymentMethod_parse _); cbv zeta in Hr;
      [destruct (_ || _)|]; rewrite Hr; by intros [msg [=]]. }
  split_and!.
  - split; [by intros H; destruct Hno400 | done].
  - done.
  - intros m _ Hm Hcast Hfree. rewrite Hm in Hr. cbv zeta in Hr.
    rewrite Hcast, (proj2 (billNumber_free _ _) Hfree) in Hr. rewrite Hr.
    by split_and!.
  - intros _ (b & Hb & Hn).
    assert (existsb (λ b, bool_decide (bill_billNumber b = generateBillNumber now))
              (bills w) = true) as Hex.
    { apply existsb_exists. exists b. split; [by apply list_elem_of_In|].
      by apply bool_decide_eq_true. }
    destruct (PaymentMethod_parse _); cbv zeta in Hr;
      [rewrite Hex, orb_true_r in Hr|]; by rewrite Hr.
  - intros _ Hm. rewrite Hm in Hr. by rewrite Hr.
  - intros _ Ha Ht.
    destruct (PaymentMethod_parse _) as [m|]; cbv zeta in Hr; [|by rewrite Hr].
    assert (Bill_castable (new_bill now userId (next_oid w) body m) = false) as Hcast.
    { unfold Bill_castable, new_bill, change_due. cbn [bill_change].
      rewrite Ha, Ht. cbn [Js.ToNumber]. rewrite sub_nan_r.
      cbn [Js.castable]. change (PrimFloat.is_nan nan) with true.
      cbn [negb]. by rewrite !andb_false_r. }
    rewrite Hcast in Hr. by rewrite Hr.
  - intros Hnd.
    destruct (PaymentMethod_parse _) as [m|]; cbv zeta in Hr;
      [destruct (negb _) eqn:Hcast; [|destruct (existsb _ _) eqn:Hex]|];
      cbn [orb] in Hr; rewrite Hr; simpl; try done.
    pose proof (proj1 (billNumber_free _ _) Hex) as Hfree.
    rewrite fmap_app. apply NoDup_app. split_and!; [done| |apply NoDup_singleton].
    intros n (b & -> & Hb)%list_elem_of_fmap Hn.
    apply list_elem_of_singleton in Hn. by apply Hfree in Hb.
Qed.

Lemma createBill_spec_witness :
  ¬ bill_rejected Sample.sale
  ∧ (∀ b, b ∈ bills Sample.shop → bill_billNumber b ≠ generateBillNumber 1000)
  ∧ (post_bill 1000 7%nat Sample.sale Sample.shop).1
    = RBill (new_bill 1000 7%nat 2%nat Sample.sale Cash)
  ∧ bill_change (new_bill 1000 7%nat 2%nat Sample.sale Cash) = Js.Num 29.
Proof.
  assert (¬ bill_rejected Sample.sale) as Hok
    by (intros [H|[H|H]]; vm_compute in H; discriminate H).
  assert (∀ b, b ∈ bills Sample.shop → bill_billNumber b ≠ generateBillNumber 1000)
    as Hfree by (intros b Hb; vm_compute in Hb; by apply elem_of_nil in Hb).
  split; [exact Hok|]. split; [exact Hfree|].
  destruct (proj1 (proj2 (proj2 (createBill_spec 1000 7%nat Sample.sale Sample.shop)))
              Cash Hok eq_refl eq_refl Hfree) as (H1 & _ & _ & _ & _ & H2).
  split; [exact H1 | exact H2].
Defined.

(** C8, on the code. A sale that goes through at clock reading 1000 (it is
    not one the route turns down, and it is stored with the number
    'BILL-1000') is refused with a 500 when it arrives again at the same
    reading: [generateBillNumber] hands out the same number, the unique index
    refuses the second bill, and the route neither draws another number nor
    tells the duplicate from any other failure. The store keeps the one bill
    it had. *)
Theorem same_millisecond_sale_fails :
  post_bill 1000 7%nat Sample.sale Sample.shop
    = (RBill Sample.sale_bill, Sample.shop_after_sale)
  ∧ bill_billNumber Sample.sale_bill = generateBillNumber 1000
  ∧ generateBillNumber 1000 = "BILL-1000"
  ∧ ¬ bill_rejected Sample.sale
  ∧ (post_bill 1000 7%nat Sample.sale Sample.shop_after_sale).1
    = RError 500 "Failed to create bill"
  ∧ bills (post_bill 1000 7%nat Sample.sale Sample.shop_after_sale).2
    = [Sample.sale_bill].
Proof.
  split; [vm_compute; reflexivity|].
  split; [vm_compute; reflexivity|].
  split; [vm_compute; reflexivity|].
  split; [intros [H|[H|H]]; vm_compute in H; discriminate H|].
  split; vm_compute; reflexivity.
Qed.

(** ** C2: deduction for a bill *)

Lemma mirror_inventories inv w : inventories (mirror inv w) = inventories w.
Proof. unfold mirror. by destruct (Product_of_inventory inv w). Qed.

Lemma Inventory_findById_elem i w :
  i ∈ inventories w → is_Some (Inventory_findById (inv_id i) w).
Proof.
  unfold Inventory_findById. generalize (inventories w) as l.
  induction l as [|j l IH]; [by intros ?%elem_of_nil|].
  intros Hi. simpl. case_bool_decide as Hj; [by eexists|].
  apply elem_of_cons in Hi as [->|Hi]; [done | by apply IH].
Qed.

Lemma resolve_item_elem item w inv :
  resolve_item item w = Some inv → inv ∈ inventories w.
Proof.
  unfold resolve_item. repeat case_match; try done.
  - by intros [? _]%Inventory_findOne_barcode_Some.
  - by intros [? _]%Inventory_findOne_productId_Some.
Qed.

(** One item, by cases on what it resolves to and on the stock at hand. *)
Lemma deduct_item_cases item w :
  validated w →
  match resolve_item item w with
  | None => deduct_item item w = (inr (mkItemError (item_label item) ItemNotFound), w)
  | Some inv =>
      if inv_quantity inv <? item_quantity item
      then deduct_item item w
           = (inr (mkItemError (item_label item)
                     (Insufficient (inv_quantity inv) (item_quantity item))), w)
      else
        let inv' :=
          derive (inv_set_quantity (inv_quantity inv - item_quantity item) inv) in
        deduct_item item w
        = (inl (mkDeducted (inv_barcode inv) (item_name item) (item_quantity item)
                  (inv_quantity inv') (inv_status inv')),
           mirror inv' (set_inventories (replace_inv inv' (inventories w)) w))
  end.
Proof.
  intros Hw.
  assert (∀ R, (if Js.truthy_str (item_barcode item)
                then gets (R:=R)
                       (Inventory_findOne_barcode (default "" (item_barcode item)))
                else match item_id item with
                     | Some pid => gets (Inventory_findOne_productId pid)
                     | None => mret None
                     end) w = (Val (resolve_item item w), w)) as Hfind.
  { intros R. unfold resolve_item. by repeat case_match. }
  unfold deduct_item, deduct_item_try, mbind, Handler_bind. cbv zeta.
  rewrite Hfind.
  destruct (resolve_item item w) as [inv|] eqn:Hres; [|done].
  destruct (inv_quantity inv <? item_quantity item) eqn:Hq; [done|].
  rewrite status_rule_eq.
  set (inv' := derive (inv_set_quantity (inv_quantity inv - item_quantity item) inv)).
  apply resolve_item_elem in Hres.
  pose proof (Inventory_findById_elem _ _ Hres) as [j Hj].
  eapply Forall_forall in Hw; [|exact Hres]. destruct Hw as [pid Hpid].
  unfold Inventory_save. replace (inv_productId inv') with (Some pid) by done.
  replace (inv_id inv') with (inv_id inv) by done. rewrite Hj. simpl.
  unfold mirror, Product_of_inventory. simpl. rewrite !Hpid.
  unfold gets, Product_save.
  change (Product_findById pid (set_inventories (replace_inv inv' (inventories w)) w))
    with (Product_findById pid w).
  destruct (Product_findById pid w) as [p|] eqn:Hp; [|done].
  pose proof (Product_findById_Some _ _ _ Hp) as [_ Hpid'].
  simpl.
  change (Product_findById (prod_id p)
            (set_inventories (replace_inv inv' (inventories w)) w))
    with (Product_findById (prod_id p) w).
  rewrite Hpid', Hp. simpl. by rewrite bool_decide_eq_true_2.
Qed.












(** The mixed bill on the sample shop: the unknown barcode and the oversized
    request are reported, the third item is served, and the stock goes from 12
    to 10 (at the threshold, so LowStock), mirrored on the product. *)
Example deductForBill_mixed_bill :
  let r := post_deduct_bill (ItemsArray (Some <$> Sample.mixed_bill)) Sample.shop in
  r.1 = RDeducted [mkDeducted (Some "B1") (Some "Chips") 2 10 LowStock]
          (Some [mkItemError (Some "Ghost") ItemNotFound;
                 mkItemError (Some "Chips") (Insufficient 12 20)])
  ∧ inv_quantity <$> inventories r.2 = [10]
  ∧ inv_status <$> inventories r.2 = [LowStock]
  ∧ prod_stock <$> products r.2 = [Some 10].
Proof. vm_compute. done. Qed.

(** C2, on the code. The request [{ billItems: [chips, null] }], whose first
    item asks for 2 of the 12 chips in stock, is neither without items, nor
    without an array, nor empty, and yet it fails as a whole: the [null] makes
    the destructuring throw, the item's [catch] reads [item.name] and throws
    again, and the route answers 500. The deduction of the first item is
    saved all the same (the stock is 10 afterwards, mirrored on the product),
    and the response lists neither that deduction nor an item error. The same
    first item alone is answered with success and leaves the same stock. *)
Theorem null_item_fails_the_whole_call :
  let chips := mkBillItem (Some "B1") None 2 (Some "Chips") in
  let r := post_deduct_bill (ItemsArray [Some chips; None]) Sample.shop in
  r.1 = RError 500 "Failed to deduct inventory for bill"
  ∧ inv_quantity <$> inventories Sample.shop = [12]
  ∧ inv_quantity <$> inventories r.2 = [10]
  ∧ inv_status <$> inventories r.2 = [LowStock]
  ∧ prod_stock <$> products r.2 = [Some 10]
  ∧ post_deduct_bill (ItemsArray [Some chips]) Sample.shop
    = (RDeducted [mkDeducted (Some "B1") (Some "Chips") 2 10 LowStock] None, r.2).
Proof. vm_compute. done. Qed.

(** ** C3: create or restock *)

Lemma post_inventory_restock body w q inv :
  body_quantity body = Some q → q ≠ 0 →
  product_accepted body w = true →
  lookup_inventory body w = Some inv →
  is_Some (inv_productId inv) →
  post_inventory body w
  = (RInventory 201 (restocked body q inv),
     set_inventories (replace_inv (restocked body q inv) (inventories w))
       (product_mirrored body (inv_quantity inv + q) w)).
Proof.
  intros Hq Hq0 Hprod Hfind [ipid Hipid].
  assert (∀ R, (if Js.truthy_str (body_barcode body)
                then gets (R:=R)
                       (Inventory_findOne_barcode (default "" (body_barcode body)))
                else match body_productId body with
                     | Some pid => gets (Inventory_findOne_productId pid)
                     | None => mret None
                     end) w = (Val (lookup_inventory body w), w)) as Hlookup.
  { intros R. unfold lookup_inventory. by repeat case_match. }
  assert (inv ∈ inventories w) as Hin.
  { unfold lookup_inventory in Hfind. repeat case_match; try done.
    - by apply Inventory_findOne_barcode_Some in Hfind as [? _].
    - by apply Inventory_findOne_productId_Some in Hfind as [? _]. }
  pose proof (Inventory_findById_elem _ _ Hin) as [j Hj].
  unfold post_inventory, route. cbv zeta. rewrite Hq.
  assert (Js.truthy_num (Some q) = true) as ->
    by (simpl; by apply negb_true_iff, Z.eqb_neq).
  unfold product_accepted, product_mirrored in *.
  unfold mbind, Handler_bind. cbn [negb default].
  destruct (body_productId body) as [pid|] eqn:Hpid.
  - destruct (Product_findById pid w) as [p|] eqn:Hp; [|done].
    pose proof (Product_findById_Some _ _ _ Hp) as [_ Hpid'].
    unfold gets at 1. rewrite Hp. unfold mret at 1, Handler_ret at 1.
    rewrite Hlookup, Hfind. unfold mret at 1, Handler_ret at 1.
    cbv beta iota zeta. cbn [fst snd]. rewrite !status_rule_eq.
    change (derive _) with (restocked body q inv).
    unfold Product_save. cbn [prod_id prod_set_barcode prod_set_stock prod_barcode].
    rewrite Hpid', Hp.
    set (p' := prod_set_barcode _ _).
    set (w1 := set_products (replace_prod p' (products w)) w).
    assert (Inventory_save (R:=Response) false (restocked body q inv) w1
            = (Val tt, set_inventories
                         (replace_inv (restocked body q inv) (inventories w)) w1))
      as Hsave.
    { unfold Inventory_save. simpl. rewrite Hipid.
      change (Inventory_findById (inv_id inv) w1) with (Inventory_findById (inv_id inv) w).
      by rewrite Hj. }
    apply orb_true_iff in Hprod as [Heq|Hfree].
    + rewrite Heq. by rewrite Hsave.
    + apply negb_true_iff in Hfree. rewrite Hfree.
      destruct (bool_decide _); by rewrite Hsave.
  - unfold mret at 1, Handler_ret at 1.
    rewrite Hlookup, Hfind. unfold mret at 1, Handler_ret at 1.
    cbv beta iota zeta. cbn [fst snd]. rewrite !status_rule_eq.
    change (derive _) with (restocked body q inv).
    unfold mret at 1, Handler_ret at 1.
    unfold Inventory_save. simpl. rewrite Hipid. by rewrite Hj.
Qed.

Lemma post_inventory_create body w q pid :
  body_quantity body = Some q → q ≠ 0 →
  body_productId body = Some pid →
  product_accepted body w = true →
  lookup_inventory body w = None →
  Inventory_barcode_taken (body_barcode body) (inventories w) = false →
  post_inventory body w
  = (RInventory 201 (created body q (next_oid w)),
     set_inventories (inventories w ++ [created body q (next_oid w)])
       (bump_oid (product_mirrored body q w))).
Proof.
  intros Hq Hq0 Hpid Hprod Hfind Hfree.
  assert (∀ R, (if Js.truthy_str (body_barcode body)
                then gets (R:=R)
                       (Inventory_findOne_barcode (default "" (body_barcode body)))
                else match body_productId body with
                     | Some pid => gets (Inventory_findOne_productId pid)
                     | None => mret None
                     end) w = (Val (lookup_inventory body w), w)) as Hlookup.
  { intros R. unfold lookup_inventory. by repeat case_match. }
  assert (created body q (next_oid w)
          = derive (mkInventory (next_oid w) (Some pid) (body_barcode body) q
                      (Js.or_num (body_minStock body) 10)
                      (Js.or_str (body_location body) "Main Store")
                      (Js.or_str (body_warehouse body) "Default") None InStock))
    as -> by (unfold created, derive; simpl; by rewrite Hpid).
  unfold post_inventory, route. cbv zeta. rewrite Hq.
  assert (Js.truthy_num (Some q) = true) as ->
    by (simpl; by apply negb_true_iff, Z.eqb_neq).
  unfold product_accepted, product_mirrored in *.
  unfold mbind, Handler_bind. cbn [negb default].
  rewrite Hpid in *.
  destruct (Product_findById pid w) as [p|] eqn:Hp; [|done].
  pose proof (Product_findById_Some _ _ _ Hp) as [_ Hpid'].
  unfold gets at 1. rewrite Hp. unfold mret at 1, Handler_ret at 1.
  rewrite Hlookup, Hfind. cbn [Js.truthy_id negb andb].
  unfold new_oid, mret, Handler_ret.
  cbv beta iota zeta. cbn [fst snd]. rewrite !status_rule_eq.
  set (new := derive _).
  unfold Product_save. cbn [prod_id prod_set_barcode prod_set_stock prod_barcode].
  change (Product_findById (prod_id p) (bump_oid w)) with (Product_findById (prod_id p) w).
  rewrite Hpid', Hp.
  set (p' := prod_set_barcode _ _).
  assert (∀ w1, inventories w1 = inventories w →
            Inventory_save (R:=Response) true new w1
            = (Val tt, set_inventories (inventories w1 ++ [new]) w1))
    as Hsave.
  { intros w1 Hw1. unfold Inventory_save. simpl. by rewrite Hw1, Hfree. }
  change (products (bump_oid w)) with (products w).
  apply orb_true_iff in Hprod as [Heq|Hfree'].
  + rewrite Heq. by rewrite Hsave.
  + apply negb_true_iff in Hfree'. rewrite Hfree'.
    destruct (bool_decide _); by rewrite Hsave.
Qed.

Lemma find_filter_nil {A} (P : A → Prop) `{!∀ x, Decision (P x)} (l : list A) :
  filter P l = [] → find (λ x, bool_decide (P x)) l = None.
Proof.
  induction l as [|x l IH]; [done|].
  rewrite filter_cons. simpl. case_decide.
  - done.
  - intros Hl. rewrite bool_decide_eq_false_2 by done. auto.
Qed.

Lemma find_app_None {A} (f : A → bool) (l1 l2 : list A) :
  find f l1 = None → find f (l1 ++ l2) = find f l2.
Proof.
  induction l1 as [|x l1 IH]; [done|]. simpl. destruct (f x); [done|auto].
Qed.

Lemma existsb_filter_nil {A} (P : A → Prop) `{!∀ x, Decision (P x)} (l : list A) :
  filter P l = [] → existsb (λ x, bool_decide (P x)) l = false.
Proof.
  induction l as [|x l IH]; [done|].
  rewrite filter_cons. simpl. case_decide.
  - done.
  - intros Hl. rewrite bool_decide_eq_false_2 by done. auto.
Qed.

Lemma replace_inv_fresh x l :
  Forall (λ i, inv_id i ≠ inv_id x) l → replace_inv x l = l.
Proof.
  induction 1 as [|i l Hi Hl IH]; [done|].
  simpl. rewrite bool_decide_eq_false_2 by done. by rewrite IH.
Qed.

Lemma post_inventory_twice body1 body2 w b pid q1 q2 :
  b ≠ "" → body_barcode body1 = Some b → body_barcode body2 = Some b →
  body_productId body1 = Some pid →
  body_quantity body1 = Some q1 → q1 ≠ 0 →
  body_quantity body2 = Some q2 → q2 ≠ 0 →
  with_barcode b w = [] → oid_fresh w →
  product_accepted body1 w = true →
  product_accepted body2 (post_inventory body1 w).2 = true →
  ∃ r, with_barcode b (post_inventory body2 (post_inventory body1 w).2).2 = [r]
       ∧ inv_quantity r = q1 + q2
       ∧ length (inventories (post_inventory body2 (post_inventory body1 w).2).2)
         = S (length (inventories w)).
Proof.
  intros Hb Hb1 Hb2 Hpid Hq1 Hq10 Hq2 Hq20 Hnone Hfresh Hp1 Hp2.
  unfold with_barcode in Hnone.
  assert (lookup_inventory body1 w = None) as Hl1.
  { unfold lookup_inventory, Js.truthy_str. rewrite Hb1. simpl.
    rewrite bool_decide_eq_false_2 by done. simpl.
    by apply find_filter_nil. }
  assert (Inventory_barcode_taken (body_barcode body1) (inventories w) = false) as Ht1.
  { rewrite Hb1. simpl. by apply existsb_filter_nil. }
  rewrite (post_inventory_create body1 w q1 pid) in * by done.
  set (new := created body1 q1 (next_oid w)) in *.
  set (w1 := (_, _).2) in *.
  assert (inventories w1 = inventories w ++ [new])%list as Hw1 by done.
  assert (inv_barcode new = Some b) as Hnb by done.
  assert (lookup_inventory body2 w1 = Some new) as Hl2.
  { unfold lookup_inventory, Js.truthy_str. rewrite Hb2. simpl.
    rewrite bool_decide_eq_false_2 by done. simpl.
    unfold Inventory_findOne_barcode. rewrite Hw1.
    rewrite find_app_None by (by apply find_filter_nil).
    simpl. by rewrite bool_decide_eq_true_2. }
  assert (is_Some (inv_productId new)) as Hnp
    by (unfold new, created; simpl; rewrite Hpid; by eexists).
  rewrite (post_inventory_restock body2 w1 q2 new) by done.
  set (r := restocked body2 q2 new). unfold with_barcode. cbn [snd].
  assert (∀ l w0, inventories (set_inventories l w0) = l) as Hset by done.
  rewrite !Hset, Hw1.
  assert (replace_inv r (inventories w ++ [new]) = inventories w ++ [r])%list as ->.
  { unfold replace_inv. rewrite map_app. f_equal.
    - apply replace_inv_fresh. eapply Forall_impl; [exact Hfresh|].
      intros i Hi. simpl in *. lia.
    - simpl. by rewrite bool_decide_eq_true_2. }
  exists r. split_and!.
  - rewrite filter_app, Hnone. simpl.
    rewrite filter_cons. by rewrite decide_True.
  - done.
  - rewrite length_app. simpl. lia.
Qed.

Lemma post_inventory_unaddressed body w :
  body_productId body = None → Js.truthy_str (body_barcode body) = false →
  ∃ msg, post_inventory body w = (RError 400 msg, w).
Proof.
  intros Hpid Hb. unfold post_inventory, route, mbind, Handler_bind. cbv zeta.
  rewrite Hpid, Hb. destruct (Js.truthy_num (body_quantity body)); by eexists.
Qed.

Lemma post_inventory_no_quantity body w :
  Js.truthy_num (body_quantity body) = false →
  post_inventory body w = (RError 400 "Quantity is required", w).
Proof. intros Hq. unfold post_inventory, route. cbv zeta. by rewrite Hq. Qed.

Lemma post_inventory_unknown_product body w pid :
  Js.truthy_num (body_quantity body) = true →
  body_productId body = Some pid → Product_findById pid w = None →
  post_inventory body w = (RError 404 "Product not found", w).
Proof.
  intros Hq Hpid Hp. unfold post_inventory, route, mbind, Handler_bind. cbv zeta.
  rewrite Hq, Hpid. cbn [negb]. unfold gets. by rewrite Hp.
Qed.

(** C3, as the code has it. [POST /api/inventory] with a non-zero quantity q
    and, when it names a product, one that exists and can take the request's
    barcode:
    - when the lookup (by barcode if the request has one, else by productId)
      finds a document, q is added to its quantity, a second document is never
      created, the id, the product reference and the barcode stay, and of
      minStock, location and warehouse a supplied value other than 0 and the
      empty string overwrites while an absent field leaves the stored value;
    - when the lookup finds nothing and the request has a productId, a
      document is created with the given values, minStock defaulting to 10,
      location to 'Main Store' and warehouse to 'Default';
    - so two such calls with the same barcode and quantities q1 and q2, on a
      store with no document for that barcode, leave exactly one document
      with that barcode, of quantity q1 + q2;
    - with neither a productId nor a barcode the request is turned down with
      a validation error and nothing changes; so it is when the quantity is 0
      or missing; and with a productId that names no product it is turned
      down as not found and nothing changes.
    In each case the status is the derived one. *)
Theorem findOrCreate_spec :
  (∀ body w q inv,
     body_quantity body = Some q → q ≠ 0 →
     product_accepted body w = true →
     lookup_inventory body w = Some inv →
     is_Some (inv_productId inv) →
     ∃ doc,
       (post_inventory body w).1 = RInventory 201 doc
       ∧ inventories (post_inventory body w).2 = replace_inv doc (inventories w)
       ∧ length (inventories (post_inventory body w).2) = length (inventories w)
       ∧ inv_quantity doc = inv_quantity inv + q
       ∧ inv_id doc = inv_id inv ∧ inv_productId doc = inv_productId inv
       ∧ inv_barcode doc = inv_barcode inv
       ∧ (∀ m, body_minStock body = Some m → m ≠ 0 → inv_minStock doc = m)
       ∧ (body_minStock body = None → inv_minStock doc = inv_minStock inv)
       ∧ (∀ l, body_location body = Some l → l ≠ "" → inv_location doc = l)
       ∧ (body_location body = None → inv_location doc = inv_location inv)
       ∧ (∀ h, body_warehouse body = Some h → h ≠ "" → inv_warehouse doc = h)
       ∧ (body_warehouse body = None → inv_warehouse doc = inv_warehouse inv)
       ∧ inv_status doc = deriveStatus (inv_quantity doc) (inv_minStock doc))
  ∧ (∀ body w q pid,
       body_quantity body = Some q → q ≠ 0 →
       body_productId body = Some pid →
       product_accepted body w = true →
       lookup_inventory body w = None →
       Inventory_barcode_taken (body_barcode body) (inventories w) = false →
       ∃ doc,
         (post_inventory body w).1 = RInventory 201 doc
         ∧ inventories (post_inventory body w).2 = (inventories w ++ [doc])%list
         ∧ inv_id doc = next_oid w
         ∧ inv_quantity doc = q ∧ inv_productId doc = Some pid
         ∧ inv_barcode doc = body_barcode body
         ∧ (∀ m, body_minStock body = Some m → m ≠ 0 → inv_minStock doc = m)
         ∧ (body_minStock body = None → inv_minStock doc = 10)
         ∧ (∀ l, body_location body = Some l → l ≠ "" → inv_location doc = l)
         ∧ (body_location body = None → inv_location doc = "Main Store")
         ∧ (∀ h, body_warehouse body = Some h → h ≠ "" → inv_warehouse doc = h)
         ∧ (body_warehouse body = None → inv_warehouse doc = "Default")
         ∧ inv_status doc = deriveStatus (inv_quantity doc) (inv_minStock doc))
  ∧ (∀ body1 body2 w b pid q1 q2,
       b ≠ "" → body_barcode body1 = Some b → body_barcode body2 = Some b →
       body_productId body1 = Some pid →
       body_quantity body1 = Some q1 → q1 ≠ 0 →
       body_quantity body2 = Some q2 → q2 ≠ 0 →
       with_barcode b w = [] → oid_fresh w →
       product_accepted body1 w = true →
       product_accepted body2 (post_inventory body1 w).2 = true →
       ∃ r, with_barcode b (post_inventory body2 (post_inventory body1 w).2).2 = [r]
            ∧ inv_quantity r = q1 + q2
            ∧ length (inventories (post_inventory body2 (post_inventory body1 w).2).2)
              = S (length (inventories w)))
  ∧ (∀ body w,
       body_productId body = None → Js.truthy_str (body_barcode body) = false →
       ∃ msg, post_inventory body w = (RError 400 msg, w))
  ∧ (∀ body w,
       body_quantity body = None ∨ body_quantity body = Some 0 →
       post_inventory body w = (RError 400 "Quantity is required", w))
  ∧ (∀ body w q pid,
       body_quantity body = Some q → q ≠ 0 →
       body_productId body = Some pid → Product_findById pid w = None →
       post_inventory body w = (RError 404 "Product not found", w)).
Proof.
  split_and!.
  - intros body w q inv Hq Hq0 Hp Hl Hpid.
    exists (restocked body q inv).
    rewrite (post_inventory_restock body w q inv) by done. simpl.
    split_and!; try done.
    + apply replace_inv_length.
    + intros m -> Hm. simpl. by rewrite (proj2 (Z.eqb_neq m 0) Hm).
    + by intros ->.
    + intros l -> Hl'. simpl. by rewrite bool_decide_eq_false_2.
    + by intros ->.
    + intros h -> Hh. simpl. by rewrite bool_decide_eq_false_2.
    + by intros ->.
  - intros body w q pid Hq Hq0 Hpid Hp Hl Hfree.
    exists (created body q (next_oid w)).
    rewrite (post_inventory_create body w q pid) by done. simpl.
    split_and!; try done.
    + intros m -> Hm. simpl. by rewrite (proj2 (Z.eqb_neq m 0) Hm).
    + by intros ->.
    + intros l -> Hl'. simpl. by rewrite bool_decide_eq_false_2.
    + by intros ->.
    + intros h -> Hh. simpl. by rewrite bool_decide_eq_false_2.
    + by intros ->.
  - apply post_inventory_twice.
  - apply post_inventory_unaddressed.
  - intros body w Hq. apply post_inventory_no_quantity.
    by destruct Hq as [-> | ->].
  - intros body w q pid Hq Hq0 Hpid Hp.
    apply (post_inventory_unknown_product body w pid); [|done..].
    rewrite Hq. simpl. by apply negb_true_iff, Z.eqb_neq.
Qed.

Lemma findOrCreate_spec_witness :
  with_barcode "B1" Sample.catalog = []
  ∧ oid_fresh Sample.catalog
  ∧ product_accepted (Sample.stock_chips 5) Sample.catalog = true
  ∧ product_accepted (Sample.stock_chips 7)
      (post_inventory (Sample.stock_chips 5) Sample.catalog).2 = true
  ∧ ∃ r, with_barcode "B1"
           (post_inventory (Sample.stock_chips 7)
              (post_inventory (Sample.stock_chips 5) Sample.catalog).2).2 = [r]
         ∧ inv_quantity r = 5 + 7
         ∧ length (inventories
                     (post_inventory (Sample.stock_chips 7)
                        (post_inventory (Sample.stock_chips 5) Sample.catalog).2).2)
           = S (length (inventories Sample.catalog)).
Proof.
  assert (with_barcode "B1" Sample.catalog = []) as Hnone by reflexivity.
  assert (oid_fresh Sample.catalog) as Hfresh by constructor.
  assert (product_accepted (Sample.stock_chips 5) Sample.catalog = true) as Hp1
    by (vm_compute; reflexivity).
  assert (product_accepted (Sample.stock_chips 7)
            (post_inventory (Sample.stock_chips 5) Sample.catalog).2 = true) as Hp2
    by (vm_compute; reflexivity).
  split_and!; try done.
  refine (proj1 (proj2 (proj2 findOrCreate_spec))
            (Sample.stock_chips 5) (Sample.stock_chips 7) Sample.catalog "B1" 0%nat
            5 7 _ eq_refl eq_refl eq_refl eq_refl _ eq_refl _ Hnone Hfresh Hp1 Hp2);
    done.
Defined.

(** The claim of C3 fails at five requests.
    - No document has barcode B9 and the request names product 9, which does
      not exist: the claim has a document created, the route answers 'Product
      not found' and creates none.
    - No document has barcode B1 and the request stocks 0 chips: the claim has
      a document created (and, called twice with 0 and 0, exactly one
      document of quantity 0), the route turns the request down as without
      quantity each time and no document exists afterwards.
    - The chips product takes barcode B9 in a catalog where the cola holds
      it: the catalog's unique index refuses the product, the route answers
      500 and creates no document.
    - A first stocking under barcode B9 that names no product is let through
      by the route and refused by the schema, which requires the product
      reference: the route answers 500 and creates no document.
    - A restock of the sample shop that supplies minStock 0 adds its five
      units and leaves the stored threshold at 10. *)
Lemma create_or_restock_departs_from_the_claim :
  let unknown := mkInventoryBody (Some 9%nat) (Some "B9") (Some 5) None None None None in
  let cola := mkProduct 1%nat "Cola" (Q2Qc 2) "Beverages" None (Some "B9") (Some 0) true in
  let two_products := mkWorld [] [Sample.chips; cola] [] 2%nat ∅ in
  let rebadge := mkInventoryBody (Some 0%nat) (Some "B9") (Some 5) None None None None in
  (lookup_inventory unknown Sample.shop = None
   ∧ Product_findById 9%nat Sample.shop = None
   ∧ post_inventory unknown Sample.shop
     = (RError 404 "Product not found", Sample.shop))
  ∧ (lookup_inventory (Sample.stock_chips 0) Sample.catalog = None
     ∧ post_inventory (Sample.stock_chips 0) Sample.catalog
       = (RError 400 "Quantity is required", Sample.catalog)
     ∧ with_barcode "B1"
         (post_inventory (Sample.stock_chips 0)
            (post_inventory (Sample.stock_chips 0) Sample.catalog).2).2 = [])
  ∧ (lookup_inventory rebadge two_products = None
     ∧ is_Some (Product_findById 0%nat two_products)
     ∧ post_inventory rebadge two_products
       = (RError 500 "Failed to add inventory", bump_oid two_products)
     ∧ inventories (bump_oid two_products) = [])
  ∧ (lookup_inventory Sample.barcode_only Sample.shop = None
     ∧ (post_inventory Sample.barcode_only Sample.shop).1
       = RError 500 "Failed to add inventory"
     ∧ inventories (post_inventory Sample.barcode_only Sample.shop).2
       = inventories Sample.shop)
  ∧ (body_minStock Sample.restock_threshold_zero = Some 0
     ∧ inv_minStock <$> inventories Sample.shop = [10]
     ∧ inv_quantity
       <$> inventories (post_inventory Sample.restock_threshold_zero Sample.shop).2
       = [17]
     ∧ inv_minStock
       <$> inventories (post_inventory Sample.restock_threshold_zero Sample.shop).2
       = [10]).
Proof.
  cbv zeta. split_and!; try (vm_compute; reflexivity).
  by eexists.
Qed.

(** * More of the code *)

(** ** The low-stock list *)



(** ** Adjusting a quantity *)


Lemma find_id_replace_prod_ne id x l :
  prod_id x ≠ id →
  find (λ p, bool_decide (prod_id p = id)) (replace_prod x l)
  = find (λ p, bool_decide (prod_id p = id)) l.
Proof.
  intros Hne. induction l as [|j l IH]; simpl; [done|].
  destruct (decide (prod_id j = prod_id x)) as [E|E].
  - rewrite (bool_decide_eq_true_2 _ E).
    rewrite !bool_decide_eq_false_2 by congruence. apply IH.
  - rewrite (bool_decide_eq_false_2 _ E). by rewrite IH.
Qed.










(** Where the whole numbers of the embedding and the doubles of the code part
    ways: from 2^53 on a double no longer holds every integer, and a sum of
    fractions is rounded. *)
Example double_addition_is_not_exact :
  (9007199254740992 + 1 = 9007199254740992)%float
  ∧ (0.2 + 0.1 - 0.1 <> 0.2)%float.
Proof. split; [reflexivity|]. intros H. vm_compute in H. discriminate H. Qed.



(** ** No overselling *)

Lemma deduct_item_stock_nonneg item w :
  validated w → stock_nonneg w → stock_nonneg (deduct_item item w).2.
Proof.
  intros Hw Hn. pose proof (deduct_item_cases item w Hw) as Hc.
  destruct (resolve_item item w) as [inv|] eqn:Hres; [|by rewrite Hc].
  destruct (inv_quantity inv <? item_quantity item) eqn:Hq; [by rewrite Hc|].
  cbv zeta in Hc. rewrite Hc. cbn [snd].
  unfold stock_nonneg. rewrite mirror_inventories. simpl.
  apply Forall_forall. intros i [->|[Hi _]]%elem_of_replace_inv.
  - simpl. apply Z.ltb_ge in Hq. lia.
  - by eapply Forall_forall in Hn.
Qed.

Lemma deduct_loop_stock_nonneg items ds es w :
  validated w → stock_nonneg w → stock_nonneg (deduct_loop items ds es w).2.
Proof.
  revert ds es w.
  induction items as [|[item|] rest IH]; intros ds es w Hw Hn; [done| |done].
  simpl. unfold mbind, Handler_bind, lift.
  pose proof (deduct_item_validated item w Hw) as Hw'.
  pose proof (deduct_item_stock_nonneg item w Hw Hn) as Hn'.
  destruct (deduct_item item w) as [[d|e] w']; by apply IH.
Qed.

(** X3. [POST /deduct-bill] never oversells: on a store of validated
    documents none of which is below zero, whatever the request (any items,
    in any number, for any quantities, or no array at all), no document is
    below zero afterwards. *)
Theorem deduct_bill_never_oversells (billItems : BillItems) (w : World) :
  validated w → stock_nonneg w → stock_nonneg (post_deduct_bill billItems w).2.
Proof.
  intros Hw Hn. unfold post_deduct_bill, route.
  destruct billItems as [| |[|item rest]]; try done.
  unfold mbind at 1, Handler_bind at 1.
  pose proof (deduct_loop_stock_nonneg (item :: rest) [] [] w Hw Hn) as H.
  by destruct (deduct_loop (item :: rest) [] [] w) as [[[ds es]|e|r] w'].
Qed.

Lemma deduct_bill_never_oversells_witness :
  validated Sample.shop ∧ stock_nonneg Sample.shop
  ∧ stock_nonneg
      (post_deduct_bill (ItemsArray (Some <$> Sample.mixed_bill)) Sample.shop).2.
Proof.
  assert (validated Sample.shop) as Hw
    by (apply (bool_decide_unpack _); vm_compute; exact I).
  assert (stock_nonneg Sample.shop) as Hn
    by (repeat constructor; simpl; lia).
  split_and!; try done.
  exact (deduct_bill_never_oversells (ItemsArray (Some <$> Sample.mixed_bill))
           Sample.shop Hw Hn).
Defined.

(** ** Registration of a new barcode *)

Lemma replace_prod_fresh x l :
  Forall (λ p, prod_id p ≠ prod_id x) l → replace_prod x l = l.
Proof.
  induction 1 as [|i l Hi Hl IH]; [done|].
  simpl. rewrite bool_decide_eq_false_2 by done. by rewrite IH.
Qed.

Lemma post_register_barcode_fresh body w b :
  reg_barcode body = Some b → ¬ register_rejected body →
  default "" (reg_category body) ∈ Product_categories →
  Product_findOne_barcode b w = None → Inventory_findOne_barcode b w = None →
  product_oid_fresh w →
  post_register_barcode body w
  = (RRegistered (registered_product body (next_oid w))
       (registered_inventory body (S (next_oid w)) (next_oid w)),
     registered body w).
Proof.
  intros Hb Hok Hcat Hp Hi Hfresh. unfold registered.
  assert (Js.truthy_str (reg_barcode body) = true ∧ Js.truthy_str (reg_name body) = true
          ∧ Js.truthy_money (reg_price body) = true
          ∧ Js.truthy_str (reg_category body) = true) as (H1 & H2 & H3 & H4).
  { unfold register_rejected in Hok.
    destruct (Js.truthy_str (reg_barcode body)), (Js.truthy_str (reg_name body)),
      (Js.truthy_money (reg_price body)), (Js.truthy_str (reg_category body));
      try done; exfalso; apply Hok; auto. }
  assert (registered_product body (next_oid w)
          = mkProduct (next_oid w) (default "" (reg_name body))
              (default 0%Qc (reg_price body)) (default "" (reg_category body))
              (Some (Js.or_str (reg_brand body) "")) (Some b)
              (Some (Js.or_num (reg_quantity body) 0)) true) as Hpe
    by (unfold registered_product; by rewrite Hb).
  assert (registered_inventory body (S (next_oid w)) (next_oid w)
          = derive (mkInventory (S (next_oid w)) (Some (next_oid w)) (Some b)
                      (Js.or_num (reg_quantity body) 0) 10
                      (Js.or_str (reg_location body) "Main Store")
                      (Js.or_str (reg_warehouse body) "Default") None InStock)) as Hie
    by (unfold registered_inventory; by rewrite Hb).
  rewrite Hpe, Hie. clear Hpe Hie.
  unfold post_register_barcode, route. cbv zeta. rewrite H1, H2, H3, H4. cbn [negb orb].
  rewrite Hb. change (default "" (Some b)) with b.
  unfold mbind, Handler_bind. unfold gets at 1. rewrite Hp.
  unfold new_oid at 1. cbv beta iota zeta.
  set (p := mkProduct (next_oid w) _ _ _ _ _ _ _).
  unfold Product_save at 1. rewrite bool_decide_eq_true_2 by done. cbn [negb].
  assert (Product_barcode_taken (prod_barcode p) (products (bump_oid w)) = false) as ->.
  { simpl. unfold Product_findOne_barcode in Hp.
    apply not_true_is_false. intros (x & Hx & Hbx)%existsb_exists.
    eapply find_none in Hp; [|exact Hx]. congruence. }
  cbv beta iota zeta. unfold mret at 1, Handler_ret at 1. cbv beta iota zeta.
  unfold gets at 1.
  change (Inventory_findOne_barcode b (set_products (products (bump_oid w) ++ [p]) (bump_oid w)))
    with (Inventory_findOne_barcode b w).
  rewrite Hi. unfold new_oid at 1. cbv beta iota zeta. unfold mret at 1, Handler_ret at 1.
  cbv beta iota zeta. cbn [fst snd]. rewrite status_rule_eq.
  set (i := derive _).
  unfold Inventory_save.
  assert (inv_productId i = Some (next_oid w)) as -> by done.
  assert (Inventory_barcode_taken (inv_barcode i) (inventories w) = false) as Htaken.
  { simpl. unfold Inventory_findOne_barcode in Hi.
    apply not_true_is_false. intros (x & Hx & Hbx)%existsb_exists.
    eapply find_none in Hi; [|exact Hx]. congruence. }
  simpl inventories. rewrite Htaken. cbv beta iota zeta.
  unfold Product_save.
  assert (prod_set_stock (Some (inv_quantity i)) p = p) as -> by done.
  assert (Forall (λ x, prod_id x ≠ prod_id p) (products w)) as Hne.
  { eapply Forall_impl; [exact Hfresh|]. intros x Hx. unfold p. simpl in *. lia. }
  assert (∀ w0, products w0 = (products w ++ [p])%list → Product_findById (prod_id p) w0 = Some p)
    as Hfind.
  { intros w0 Hw0. unfold Product_findById. rewrite Hw0.
    rewrite find_app_None.
    - simpl. by rewrite bool_decide_eq_true_2.
    - clear -Hne. induction Hne as [|x l Hx Hl IH]; [done|].
      simpl. by rewrite bool_decide_eq_false_2. }
  rewrite Hfind by done. rewrite bool_decide_eq_true_2 by done.
  unfold mret, Handler_ret. simpl.
  assert (replace_prod p (products w ++ [p]) = products w ++ [p])%list as ->.
  { unfold replace_prod. rewrite map_app. simpl.
    rewrite bool_decide_eq_true_2 by done.
    f_equal. by apply (replace_prod_fresh p). }
  done.
Qed.

Lemma find_app_last {A} (f : A → bool) l x :
  Forall (λ y, f y = false) l → f x = true → find f (l ++ [x]) = Some x.
Proof.
  induction 1 as [|y l Hy Hl IH]; intros Hx; simpl.
  - by rewrite Hx.
  - rewrite Hy. by apply IH.
Qed.

(** X4. Registering a barcode that no product and no inventory document has
    yet stores exactly one new product and one new inventory document,
    linked to each other, the product's stock equal to the inventory's
    quantity and the status following the rule; bills and cache are
    untouched. Both documents are then read back as stored, the inventory
    by its barcode and the product by its id. *)
Theorem register_barcode_round_trip body w b :
  reg_barcode body = Some b → ¬ register_rejected body →
  default "" (reg_category body) ∈ Product_categories →
  Product_findOne_barcode b w = None → Inventory_findOne_barcode b w = None →
  product_oid_fresh w →
  post_register_barcode body w
  = (RRegistered (registered_product body (next_oid w))
       (registered_inventory body (S (next_oid w)) (next_oid w)),
     registered body w)
  ∧ prod_stock (registered_product body (next_oid w))
    = Some (inv_quantity (registered_inventory body (S (next_oid w)) (next_oid w)))
  ∧ inv_productId (registered_inventory body (S (next_oid w)) (next_oid w))
    = Some (prod_id (registered_product body (next_oid w)))
  ∧ status_derived (registered_inventory body (S (next_oid w)) (next_oid w))
  ∧ get_inventory_by_barcode b (registered body w)
    = (RInventory 200 (registered_inventory body (S (next_oid w)) (next_oid w)),
       registered body w)
  ∧ get_product (next_oid w) (registered body w)
    = (RProduct (registered_product body (next_oid w)), registered body w).
Proof.
  intros Hb Hok Hcat Hp Hi Hfresh.
  split; [by apply (post_register_barcode_fresh body w b)|].
  split; [done|]. split; [done|].
  split; [apply derive_status_derived|].
  split.
  - unfold get_inventory_by_barcode, route, mbind, Handler_bind, gets.
    unfold Inventory_findOne_barcode at 1. unfold registered at 1. cbn [inventories].
    rewrite find_app_last.
    + done.
    + unfold Inventory_findOne_barcode in Hi. clear -Hi.
      induction (inventories w) as [|x l IH]; [done|].
      simpl in Hi. destruct (bool_decide (inv_barcode x = Some b)) eqn:E; [done|].
      constructor; auto.
    + apply bool_decide_eq_true_2. unfold registered_inventory. by rewrite Hb.
  - unfold get_product, route, mbind, Handler_bind, gets.
    unfold Product_findById at 1. unfold registered at 1. cbn [products].
    rewrite find_app_last.
    + done.
    + eapply Forall_impl; [exact Hfresh|]. intros x Hx. simpl in Hx.
      apply bool_decide_eq_false_2. lia.
    + by apply bool_decide_eq_true_2.
Qed.

Lemma register_barcode_round_trip_witness :
  post_register_barcode Sample.register_milk Sample.shop
  = (RRegistered (registered_product Sample.register_milk 2%nat)
       (registered_inventory Sample.register_milk 3%nat 2%nat),
     registered Sample.register_milk Sample.shop)
  ∧ get_product 2%nat (registered Sample.register_milk Sample.shop)
    = (RProduct (registered_product Sample.register_milk 2%nat),
       registered Sample.register_milk Sample.shop).
Proof.
  assert (¬ register_rejected Sample.register_milk) as Hok.
  { intros [H|[H|[H|H]]]; vm_compute in H; discriminate. }
  assert (default "" (reg_category Sample.register_milk) ∈ Product_categories) as Hcat.
  { apply (bool_decide_unpack
             (default "" (reg_category Sample.register_milk) ∈ Product_categories)).
    vm_compute. exact I. }
  assert (product_oid_fresh Sample.shop) as Hfresh.
  { repeat constructor. }
  destruct (register_barcode_round_trip Sample.register_milk Sample.shop "B2"
              eq_refl Hok Hcat eq_refl eq_refl Hfresh)
    as (H1 & _ & _ & _ & _ & H2).
  split; [exact H1 | exact H2].
Defined.

(** ** The product cache and the soft delete *)

Lemma get_product_by_barcode_miss b w :
  redis w !! ("barcode:" +:+ b) = None →
  get_product_by_barcode b w
  = match Product_findOne_active b w with
    | Some p => (RProduct p, cached_by_barcode b p w)
    | None => (RError 404 "Product not found by barcode", w)
    end.
Proof.
  intros Hmiss.
  unfold get_product_by_barcode, route, mbind, Handler_bind, lift.
  unfold cacheService.getCachedProductByBarcode, guarded, Redis.get, mbind, Handler_bind.
  simpl. rewrite Hmiss. simpl.
  unfold Product_findOne_active. by destruct (find _ (products w)).
Qed.

Lemma get_product_by_barcode_hit b ttl v w :
  redis w !! ("barcode:" +:+ b) = Some (ttl, v) →
  get_product_by_barcode b w = (RCachedProduct v, w).
Proof.
  intros Hhit.
  unfold get_product_by_barcode, route, mbind, Handler_bind, lift.
  unfold cacheService.getCachedProductByBarcode, guarded, Redis.get, mbind, Handler_bind.
  simpl. by rewrite Hhit.
Qed.

Lemma delete_product_found id p w :
  Product_findById id w = Some p →
  delete_product id w = (RProduct (prod_set_active false p), deactivated p w).
Proof.
  intros Hp. unfold delete_product, route, mbind, Handler_bind, Product_deactivate.
  by rewrite Hp.
Qed.

(** X5. A product read by barcode for the first time comes from the
    catalog and is stored in the cache for 24 hours. Deleting the product
    marks it inactive in the catalog and leaves the cache alone, so the next
    read by that barcode still answers with the cached copy, active, while
    the catalog by itself would answer that there is no such product. *)
Theorem deleted_product_still_served_by_barcode b p w :
  redis w !! ("barcode:" +:+ b) = None →
  Product_findOne_active b w = Some p →
  Product_findById (prod_id p) w = Some p →
  get_product_by_barcode b w = (RProduct p, cached_by_barcode b p w)
  ∧ delete_product (prod_id p) (cached_by_barcode b p w)
    = (RProduct (prod_set_active false p), deactivated p (cached_by_barcode b p w))
  ∧ get_product_by_barcode b (deactivated p (cached_by_barcode b p w))
    = (RCachedProduct (SnapProduct p), deactivated p (cached_by_barcode b p w))
  ∧ prod_active p = true
  ∧ get_product (prod_id p) (deactivated p (cached_by_barcode b p w))
    = (RProduct (prod_set_active false p), deactivated p (cached_by_barcode b p w))
  ∧ (Forall (λ x, prod_barcode x = Some b → prod_id x = prod_id p) (products w) →
     Product_findOne_active b (deactivated p w) = None).
Proof.
  intros Hmiss Hfind Hid.
  split; [by rewrite get_product_by_barcode_miss, Hfind|].
  split; [by apply delete_product_found|].
  split.
  { apply (get_product_by_barcode_hit b cacheService.EXPIRY_BARCODE).
    simpl. by rewrite lookup_insert_eq. }
  split.
  { unfold Product_findOne_active in Hfind. apply find_some in Hfind as [_ H].
    by apply andb_true_iff in H as [_ H]. }
  split.
  { unfold get_product, route, mbind, Handler_bind, gets.
    assert (Product_findById (prod_id p) (deactivated p (cached_by_barcode b p w))
            = Some (prod_set_active false p)) as ->; [|done].
    unfold Product_findById in *. simpl.
    revert Hid. clear. induction (products w) as [|x l IH]; [done|].
    simpl. destruct (bool_decide (prod_id x = prod_id p)) eqn:E.
    - simpl. by rewrite bool_decide_eq_true_2.
    - rewrite E. exact IH. }
  intros Hall. unfold Product_findOne_active, deactivated. simpl.
  clear -Hall. induction Hall as [|x l Hx Hl IH]; [done|].
  simpl. destruct (bool_decide (prod_id x = prod_id p)) eqn:E.
  - simpl. rewrite andb_false_r. exact IH.
  - apply bool_decide_eq_false in E.
    destruct (bool_decide (prod_barcode x = Some b)) eqn:E2.
    + apply bool_decide_eq_true in E2. by apply Hx in E2.
    + simpl. exact IH.
Qed.

Lemma deleted_product_still_served_by_barcode_witness :
  get_product_by_barcode "B1" Sample.shop
  = (RProduct Sample.chips, cached_by_barcode "B1" Sample.chips Sample.shop)
  ∧ get_product_by_barcode "B1"
      (deactivated Sample.chips (cached_by_barcode "B1" Sample.chips Sample.shop))
    = (RCachedProduct (SnapProduct Sample.chips),
       deactivated Sample.chips (cached_by_barcode "B1" Sample.chips Sample.shop)).
Proof.
  destruct (deleted_product_still_served_by_barcode "B1" Sample.chips Sample.shop
              eq_refl eq_refl eq_refl) as (H1 & _ & H2 & _).
  split; [exact H1 | exact H2].
Defined.

(** ** Carts and users in the cache *)




(** ** Invalidation of a product's cache entries *)

(** X7. [invalidateProductCache] with a non-empty barcode removes the
    product's entry, the entry under the barcode and the product list, and
    nothing else; both cached reads miss afterwards, and the next read by
    barcode goes to the catalog again: it finds the active product with
    that barcode and caches it, or answers 404. Without a barcode (or with
    an empty one) the entry under a barcode is left in place. *)
Theorem invalidate_product_cache_restores_catalog_read (id : ObjectId) b w :
  b ≠ "" →
  cacheService.invalidateProductCache (JsId id) (Some b) w
  = (true, product_invalidated id b w)
  ∧ (cacheService.getCachedProduct (JsId id) (product_invalidated id b w)).1 = None
  ∧ (cacheService.getCachedProductByBarcode (JsStr b) (product_invalidated id b w)).1
    = None
  ∧ get_product_by_barcode b (product_invalidated id b w)
    = match Product_findOne_active b w with
      | Some p => (RProduct p, cached_by_barcode b p (product_invalidated id b w))
      | None => (RError 404 "Product not found by barcode", product_invalidated id b w)
      end
  ∧ (∀ k, k ≠ "product:" +:+ pretty id → k ≠ "barcode:" +:+ b → k ≠ "products:list" →
       redis (product_invalidated id b w) !! k = redis w !! k)
  ∧ (∀ barcode, Js.truthy_str barcode = false →
       redis (cacheService.invalidateProductCache (JsId id) barcode w).2
         !! ("barcode:" +:+ b)
       = redis w !! ("barcode:" +:+ b)).
Proof.
  intros Hb.
  assert (Js.truthy_str (Some b) = true) as Htruthy.
  { unfold Js.truthy_str. by destruct b. }
  split.
  { unfold cacheService.invalidateProductCache, guarded, Redis.del, mbind, Handler_bind.
    rewrite Htruthy. reflexivity. }
  assert (redis (product_invalidated id b w) !! ("barcode:" +:+ b) = None) as Hmiss.
  { unfold product_invalidated. simpl.
    rewrite lookup_delete_ne by done. by rewrite lookup_delete_eq. }
  split.
  { unfold cacheService.getCachedProduct, guarded, Redis.get, mbind, Handler_bind. simpl.
    rewrite lookup_delete_ne by done. rewrite lookup_delete_ne by done.
    by rewrite lookup_delete_eq. }
  split.
  { unfold cacheService.getCachedProductByBarcode, guarded, Redis.get, mbind, Handler_bind.
    simpl. simpl in Hmiss. by rewrite Hmiss. }
  split; [by rewrite get_product_by_barcode_miss|].
  split.
  { intros k H1 H2 H3. unfold product_invalidated. simpl.
    by rewrite !lookup_delete_ne. }
  intros barcode Hfalsy.
  unfold cacheService.invalidateProductCache, guarded, Redis.del, mbind, Handler_bind.
  rewrite Hfalsy. simpl. by rewrite !lookup_delete_ne.
Qed.

Lemma invalidate_product_cache_restores_catalog_read_witness :
  get_product_by_barcode "B1"
    (product_invalidated 0%nat "B1"
       (deactivated Sample.chips (cached_by_barcode "B1" Sample.chips Sample.shop)))
  = (RError 404 "Product not found by barcode",
     product_invalidated 0%nat "B1"
       (deactivated Sample.chips (cached_by_barcode "B1" Sample.chips Sample.shop))).
Proof.
  assert ("B1" ≠ "") as Hb by discriminate.
  exact (proj1 (proj2 (proj2 (proj2
    (invalidate_product_cache_restores_catalog_read 0%nat "B1"
       (deactivated Sample.chips (cached_by_barcode "B1" Sample.chips Sample.shop))
       Hb))))).
Defined.

(** ** Popular products *)

Lemma obj_get_None {V} k (o : list (option ObjectId * V)) :
  obj_get k o = None ↔ k ∉ o.*1.
Proof.
  unfold obj_get. induction o as [|[k' v] o IH]; simpl.
  - split; [intros _; apply not_elem_of_nil | done].
  - rewrite not_elem_of_cons. case_bool_decide as E; simpl in *.
    + split; [done | intros [? _]; congruence].
    + rewrite IH. split; [intros ?; split; [congruence | done] | by intros [_ ?]].
Qed.

Lemma obj_get_Some_elem {V} k v (o : list (option ObjectId * V)) :
  obj_get k o = Some v → (k, v) ∈ o.
Proof.
  unfold obj_get. intros H. apply fmap_Some in H as ([k' v'] & Hfind & ->).
  apply find_some in Hfind as [Hin Hk]. apply bool_decide_eq_true in Hk.
  simpl in Hk. subst k'. by apply list_elem_of_In.
Qed.

Lemma obj_get_is_Some {V} k (o : list (option ObjectId * V)) :
  k ∈ o.*1 → is_Some (obj_get k o).
Proof.
  intros H. destruct (obj_get k o) eqn:E; [by eexists|].
  by apply obj_get_None in E.
Qed.

Lemma obj_set_fresh {V} k (v : V) o : k ∉ o.*1 → obj_set k v o = (o ++ [(k, v)])%list.
Proof. intros H. unfold obj_set. by rewrite (proj2 (obj_get_None k o) H). Qed.

Lemma obj_alter_keys {V} (f : V → V) k o : (obj_alter f k o).*1 = o.*1.
Proof.
  unfold obj_alter. induction o as [|[k' v] o IH]; [done|].
  simpl. case_bool_decide; simpl; f_equal; exact IH.
Qed.

Lemma elem_of_obj_alter {V} (f : V → V) k o k' v' :
  (k', v') ∈ obj_alter f k o
  ↔ ∃ v, (k', v) ∈ o ∧ v' = if decide (k' = k) then f v else v.
Proof.
  unfold obj_alter. rewrite list_elem_of_fmap. split.
  - intros ([k0 v0] & Heq & Hin). simpl in Heq. case_bool_decide as E.
    + injection Heq as -> ->. exists v0. split; [done|]. by rewrite decide_True.
    + injection Heq as -> ->. exists v0. split; [done|]. by rewrite decide_False.
  - intros (v & Hin & ->). exists (k', v). split; [|done]. simpl.
    case_bool_decide; [by rewrite decide_True | by rewrite decide_False].
Qed.

Lemma lines_of_snoc k lines item :
  lines_of k (lines ++ [item])
  = (lines_of k lines ++ (if decide (line_productId item = k) then [item] else []))%list.
Proof.
  unfold lines_of. by rewrite filter_app.
Qed.

Lemma lines_of_absent k lines : k ∉ line_productId <$> lines → lines_of k lines = [].
Proof.
  intros H. unfold lines_of. induction lines as [|l lines IH]; [done|].
  rewrite fmap_cons, not_elem_of_cons in H. destruct H as [H1 H2].
  rewrite filter_cons, decide_False by done. by apply IH.
Qed.

Lemma double_sum_snoc l v :
  double_sum (l ++ [v]) = (double_sum l + Js.ToNumber v)%float.
Proof. unfold double_sum. by rewrite fold_left_app. Qed.

Lemma sold_count_snoc k lines item :
  sold_count k (lines ++ [item])
  = (sold_count k lines + (if decide (line_productId item = k) then 1 else 0))%nat.
Proof.
  unfold sold_count. rewrite lines_of_snoc, length_app. by destruct (decide _).
Qed.

Lemma sold_revenue_snoc k lines item :
  sold_revenue k (lines ++ [item])
  = if decide (line_productId item = k)
    then Js.add (sold_revenue k lines) (line_totalPrice item)
    else sold_revenue k lines.
Proof.
  unfold sold_revenue. rewrite lines_of_snoc. destruct (decide _).
  - rewrite fmap_app. apply double_sum_snoc.
  - by rewrite app_nil_r.
Qed.

Lemma sold_quantity_snoc k lines item :
  sold_quantity k (lines ++ [item])
  = if decide (line_productId item = k)
    then Js.add (sold_quantity k lines) (line_quantity item)
    else sold_quantity k lines.
Proof.
  unfold sold_quantity. rewrite lines_of_snoc. destruct (decide _).
  - rewrite fmap_app. apply double_sum_snoc.
  - by rewrite app_nil_r.
Qed.

Lemma counted_step lines pc pd item :
  counted lines pc pd →
  counted (lines ++ [item]) (count_item (pc, pd) item).1 (count_item (pc, pd) item).2.
Proof.
  intros (Hnd & Hkeys & Hdom & Hpc & Hpd).
  set (k := line_productId item).
  assert (∃ pc1 pd1,
    match obj_get k pc with
    | None => (obj_set k (mkProductCount 0 0%float) pc,
               obj_set k (mkProductDetails (line_productName item) 0%float 0%float) pd)
    | Some _ => (pc, pd)
    end = (pc1, pd1)
    ∧ NoDup pc1.*1 ∧ pd1.*1 = pc1.*1
    ∧ (∀ k', k' ∈ pc1.*1 ↔ k' ∈ line_productId <$> (lines ++ [item])%list)
    ∧ (∀ k' c, (k', c) ∈ pc1 →
         c = mkProductCount (sold_count k' lines) (sold_revenue k' lines))
    ∧ (∀ k' d, (k', d) ∈ pd1 →
         Some (pd_name d)
         = line_productName <$> head (lines_of k' (lines ++ [item])%list)
         ∧ pd_quantity d = sold_quantity k' lines
         ∧ pd_totalSold d = sold_revenue k' lines))
    as (pc1 & pd1 & Hcreated & Hnd1 & Hkeys1 & Hdom1 & Hpc1 & Hpd1).
  { destruct (obj_get k pc) as [c0|] eqn:E.
    - assert (k ∈ pc.*1) as Hin.
      { destruct (decide (k ∈ pc.*1)) as [|Hn]; [done|].
        apply obj_get_None in Hn. congruence. }
      exists pc, pd. repeat split; try done.
      + rewrite fmap_app, elem_of_app. intros ?. left. by apply Hdom.
      + rewrite fmap_app, elem_of_app. intros [?|Hx]; [by apply Hdom|].
        apply list_elem_of_singleton in Hx. by subst.
      + destruct (Hpd _ _ H) as (Hname & _ & _).
        rewrite lines_of_snoc.
        destruct (lines_of k' lines); [done|]. exact Hname.
      + by destruct (Hpd _ _ H) as (_ & ? & _).
      + by destruct (Hpd _ _ H) as (_ & _ & ?).
    - apply obj_get_None in E.
      assert (lines_of k lines = []) as Hnone.
      { apply lines_of_absent. by rewrite <- Hdom. }
      rewrite !obj_set_fresh by (by rewrite ?Hkeys).
      eexists _, _. split; [reflexivity|].
      split.
      { rewrite fmap_app. apply NoDup_app. split; [done|]. split.
        - intros x Hx Hx'. apply list_elem_of_singleton in Hx'. by subst.
        - apply NoDup_singleton. }
      split; [by rewrite !fmap_app, Hkeys|].
      split.
      { intros k'. rewrite !fmap_app, !elem_of_app. by rewrite Hdom. }
      split.
      { intros k' c [Hin|Heq%list_elem_of_singleton]%elem_of_app; [by apply Hpc|].
        injection Heq as -> ->. unfold sold_count, sold_revenue. by rewrite Hnone. }
      intros k' d [Hin|Heq%list_elem_of_singleton]%elem_of_app.
      + destruct (Hpd _ _ Hin) as (Hname & ? & ?). split; [|done].
        rewrite lines_of_snoc. destruct (lines_of k' lines); [done|]. exact Hname.
      + injection Heq as -> ->. fold k. unfold sold_quantity, sold_revenue.
        rewrite lines_of_snoc, Hnone. simpl. by rewrite decide_True. }
  unfold count_item. cbn [fst snd]. fold k. rewrite Hcreated. cbn [fst snd].
  unfold counted. rewrite !obj_alter_keys.
  split; [done|]. split; [done|]. split; [done|].
  split.
  - intros k' c (c1 & (c0 & Hin & ->)%elem_of_obj_alter & ->)%elem_of_obj_alter.
    rewrite (Hpc1 _ _ Hin), sold_count_snoc, sold_revenue_snoc. fold k.
    destruct (decide (k' = k)) as [->|Hne].
    + rewrite !decide_True by done. simpl. done.
    + rewrite !decide_False by done. simpl. f_equal. lia.
  - intros k' d (d1 & (d0 & Hin & ->)%elem_of_obj_alter & ->)%elem_of_obj_alter.
    destruct (Hpd1 _ _ Hin) as (Hname & Hq & Hr).
    rewrite sold_quantity_snoc, sold_revenue_snoc. fold k.
    destruct (decide (k' = k)) as [->|Hne].
    + rewrite !decide_True by done. simpl. by rewrite Hq, Hr.
    + rewrite !decide_False by done. simpl. by rewrite Hq, Hr.
Qed.

Lemma counted_fold lines seen pc pd :
  counted seen pc pd →
  counted (seen ++ lines) (fold_left count_item lines (pc, pd)).1
    (fold_left count_item lines (pc, pd)).2.
Proof.
  revert seen pc pd. induction lines as [|item lines IH]; intros seen pc pd H.
  - by rewrite app_nil_r.
  - simpl. rewrite (cons_middle item seen lines), app_assoc.
    destruct (count_item (pc, pd) item) as [pc' pd'] eqn:E.
    apply IH. pose proof (counted_step seen pc pd item H) as H'.
    by rewrite E in H'.
Qed.

Lemma fold_bills_lines (bills : list Bill) acc :
  fold_left (λ acc bill, fold_left count_item (bill_items bill) acc) bills acc
  = fold_left count_item (concat (bill_items <$> bills)) acc.
Proof.
  revert acc. induction bills as [|b bills IH]; intros acc; [done|].
  simpl. by rewrite fold_left_app, IH.
Qed.

Lemma insert_by_count_perm e l : insert_by_count e l ≡ₚ e :: l.
Proof.
  induction l as [|x l IH]; [done|]. simpl.
  destruct (pop_count x <=? pop_count e)%nat; [done|].
  rewrite IH. apply Permutation_swap.
Qed.

Lemma sort_by_count_perm l : sort_by_count l ≡ₚ l.
Proof.
  unfold sort_by_count. induction l as [|x l IH]; [done|].
  simpl. by rewrite insert_by_count_perm, IH.
Qed.

Lemma insert_by_count_sorted e l :
  StronglySorted by_count_desc l → StronglySorted by_count_desc (insert_by_count e l).
Proof.
  induction 1 as [|x l Hl IH Hx]; simpl.
  - repeat constructor.
  - destruct (pop_count x <=? pop_count e)%nat eqn:E.
    + apply Nat.leb_le in E. constructor; [by constructor|].
      constructor; [exact E|].
      eapply Forall_impl; [exact Hx|]. unfold by_count_desc. intros y Hy. lia.
    + apply Nat.leb_gt in E. constructor; [exact IH|].
      rewrite insert_by_count_perm. constructor; [|exact Hx].
      unfold by_count_desc. lia.
Qed.

Lemma sort_by_count_sorted l : StronglySorted by_count_desc (sort_by_count l).
Proof.
  unfold sort_by_count. induction l as [|x l IH]; simpl.
  - constructor.
  - by apply insert_by_count_sorted.
Qed.

Lemma slice_to_prefix {A} limit (l : list A) : ∃ n, slice_to limit l = take n l.
Proof. unfold slice_to. destruct (limit <? 0); by eexists. Qed.

Lemma sorted_prefix_above_rest (l : list PopularProduct) n a b :
  StronglySorted by_count_desc l → a ∈ take n l → b ∈ drop n l → by_count_desc a b.
Proof.
  intros Hs Ha Hb. rewrite <- (take_drop n l) in Hs.
  by apply (StronglySorted_app_1_elem_of _ _ _ _ _ Hs).
Qed.

Lemma sorted_prefix_sorted (l : list PopularProduct) n :
  StronglySorted by_count_desc l → StronglySorted by_count_desc (take n l).
Proof.
  intros Hs. rewrite <- (take_drop n l) in Hs.
  by apply StronglySorted_app in Hs as (_ & ? & _).
Qed.

Lemma counted_nil : counted [] [] [].
Proof.
  unfold counted. split; [apply NoDup_nil_2|]. split; [done|]. split; [done|].
  split; intros ? ? H; by apply elem_of_nil in H.
Qed.

(** The answer is a prefix of the sorted entries of a [productCount] that
    agrees with the lines of the user's bills. *)
Lemma getPopularProducts_shape userId limit w :
  ∃ pc pd,
    counted (sold_lines userId w) pc pd
    ∧ getPopularProducts userId limit w
      = slice_to limit (sort_by_count (popular_entry pd <$> pc)).
Proof.
  unfold getPopularProducts. cbv zeta. rewrite fold_bills_lines.
  fold (sold_lines userId w).
  pose proof (counted_fold (sold_lines userId w) [] [] [] counted_nil) as H.
  simpl in H.
  destruct (fold_left count_item (sold_lines userId w) ([], [])) as [pc pd].
  by exists pc, pd.
Qed.

Lemma popular_entry_counted lines pc pd e :
  counted lines pc pd → e ∈ popular_entry pd <$> pc →
  pop_productId e ∈ line_productId <$> lines
  ∧ pop_count e = sold_count (pop_productId e) lines
  ∧ pop_revenue e = sold_revenue (pop_productId e) lines
  ∧ ∃ d, pop_details e = Some d
         ∧ Some (pd_name d)
           = line_productName <$> head (lines_of (pop_productId e) lines)
         ∧ pd_quantity d = sold_quantity (pop_productId e) lines
         ∧ pd_totalSold d = sold_revenue (pop_productId e) lines.
Proof.
  intros (Hnd & Hkeys & Hdom & Hpc & Hpd) ([k c] & -> & Hin)%list_elem_of_fmap.
  unfold popular_entry. simpl.
  assert (k ∈ pc.*1) as Hk by (by apply (list_elem_of_fmap_2 fst) in Hin).
  split; [by apply Hdom|].
  rewrite (Hpc _ _ Hin). simpl. split; [done|]. split; [done|].
  destruct (obj_get_is_Some k pd) as [d Hd]; [by rewrite Hkeys|].
  exists d. split; [done|]. by apply Hpd, obj_get_Some_elem.
Qed.

Lemma sold_count_pos k lines : k ∈ line_productId <$> lines → (1 ≤ sold_count k lines)%nat.
Proof.
  intros (l & -> & Hin)%list_elem_of_fmap. unfold sold_count, lines_of.
  assert (l ∈ filter (λ l0, line_productId l0 = line_productId l) lines) as H
    by (by apply list_elem_of_filter).
  destruct (filter _ lines); [by apply elem_of_nil in H | simpl; lia].
Qed.

(** X8. Every entry that [getPopularProducts] returns for a user describes
    one product named on the lines of that user's bills: its count is the
    number of those lines (at least one), its revenue the sum of their total
    prices as the code's arithmetic takes it (from 0, line after line, in
    doubles, a line without a total price making it NaN), and its details
    carry the name on the first such line, the sum of the quantities taken
    the same way and the same sum of total prices. *)
Theorem popular_products_totals userId limit w e :
  e ∈ getPopularProducts userId limit w →
  pop_productId e ∈ line_productId <$> sold_lines userId w
  ∧ pop_count e = sold_count (pop_productId e) (sold_lines userId w)
  ∧ (1 ≤ pop_count e)%nat
  ∧ pop_revenue e = sold_revenue (pop_productId e) (sold_lines userId w)
  ∧ ∃ d, pop_details e = Some d
         ∧ Some (pd_name d)
           = line_productName <$> head (lines_of (pop_productId e) (sold_lines userId w))
         ∧ pd_quantity d = sold_quantity (pop_productId e) (sold_lines userId w)
         ∧ pd_totalSold d = pop_revenue e.
Proof.
  destruct (getPopularProducts_shape userId limit w) as (pc & pd & Hc & ->).
  destruct (slice_to_prefix limit (sort_by_count (popular_entry pd <$> pc))) as [n ->].
  intros He. apply elem_of_take in He as (i & He & _).
  apply list_elem_of_lookup_2 in He.
  rewrite sort_by_count_perm in He.
  destruct (popular_entry_counted _ _ _ _ Hc He) as (Hid & Hcount & Hrev & d & Hd & ? & ? & ?).
  split; [done|]. split; [done|].
  split; [rewrite Hcount; by apply sold_count_pos|].
  split; [done|]. exists d. by rewrite Hrev.
Qed.

Lemma popular_products_totals_witness :
  pop_count (mkPopularProduct (Some 0%nat) 1 20%float
               (Some (mkProductDetails "Chips" 2%float 20%float)))
  = sold_count (Some 0%nat) (sold_lines 7%nat Sample.shop_after_sale).
Proof.
  assert (mkPopularProduct (Some 0%nat) 1 20%float
            (Some (mkProductDetails "Chips" 2%float 20%float))
          ∈ getPopularProducts 7%nat 10 Sample.shop_after_sale) as Hin.
  { vm_compute. apply list_elem_of_here. }
  exact (proj1 (proj2 (popular_products_totals 7%nat 10 Sample.shop_after_sale _ Hin))).
Defined.

(** X9. The answer of [getPopularProducts] lists each product at most
    once, in descending order of its count; a product of the user's bills
    that is left out has a count no greater than any product listed; and
    for a limit that is not negative the answer has as many entries as
    there are distinct products on the user's bills, up to the limit. *)
Theorem popular_products_ranking userId limit w :
  StronglySorted by_count_desc (getPopularProducts userId limit w)
  ∧ NoDup (pop_productId <$> getPopularProducts userId limit w)
  ∧ (∀ e k, e ∈ getPopularProducts userId limit w →
       k ∈ line_productId <$> sold_lines userId w →
       k ∉ pop_productId <$> getPopularProducts userId limit w →
       (sold_count k (sold_lines userId w) ≤ pop_count e)%nat)
  ∧ (0 ≤ limit →
     length (getPopularProducts userId limit w)
     = (Z.to_nat limit
        `min` length (remove_dups (line_productId <$> sold_lines userId w)))%nat).
Proof.
  destruct (getPopularProducts_shape userId limit w) as (pc & pd & Hc & ->).
  pose proof Hc as (Hnd & Hkeys & Hdom & Hpc & Hpd).
  set (popular := popular_entry pd <$> pc).
  assert ((pop_productId <$> popular) = pc.*1) as Hids.
  { unfold popular. rewrite <- list_fmap_compose. done. }
  split; [|split; [|split]].
  - destruct (slice_to_prefix limit (sort_by_count popular)) as [n ->].
    apply sorted_prefix_sorted, sort_by_count_sorted.
  - destruct (slice_to_prefix limit (sort_by_count popular)) as [n ->].
    apply (sublist_NoDup _ (pop_productId <$> sort_by_count popular));
      [by rewrite sort_by_count_perm, Hids | apply fmap_sublist, sublist_take].
  - destruct (slice_to_prefix limit (sort_by_count popular)) as [n ->].
    intros e k He Hk Hout.
    apply Hdom in Hk. rewrite <- Hids in Hk.
    apply list_elem_of_fmap in Hk as (e' & -> & He').
    assert (pop_count e' = sold_count (pop_productId e') (sold_lines userId w)) as <-.
    { by destruct (popular_entry_counted _ _ _ _ Hc He') as (_ & ? & _). }
    rewrite <- sort_by_count_perm in He'.
    rewrite <- (take_drop n (sort_by_count popular)) in He'.
    apply elem_of_app in He' as [He'|He'].
    + exfalso. apply Hout. by apply list_elem_of_fmap_2.
    + apply (sorted_prefix_above_rest (sort_by_count popular) n e e');
        [apply sort_by_count_sorted | done | done].
  - intros Hlimit. unfold slice_to.
    assert ((limit <? 0) = false) as -> by lia.
    rewrite length_take, sort_by_count_perm. f_equal.
    unfold popular. rewrite length_fmap, <- (length_fmap fst pc).
    apply Permutation_length, NoDup_Permutation; [done | apply NoDup_remove_dups|].
    intros k. by rewrite elem_of_remove_dups.
Qed.

(** ** The routes on one bill *)

Lemma find_all_false {A} (f : A → bool) l :
  Forall (λ y, f y = false) l → find f l = None.
Proof. induction 1 as [|y l Hy Hl IH]; simpl; [done | by rewrite Hy]. Qed.

Lemma Bill_findOne_owned_elem b userId w :
  b ∈ bills w → NoDup (bill_id <$> bills w) →
  Bill_findOne_owned (bill_id b) userId w
  = if decide (bill_userId b = userId) then Some b else None.
Proof.
  unfold Bill_findOne_owned. induction (bills w) as [|x l IH]; intros Hin Hnd.
  - by apply elem_of_nil in Hin.
  - rewrite fmap_cons in Hnd. apply NoDup_cons in Hnd as [Hx Hnd].
    apply elem_of_cons in Hin as [<-|Hin]; simpl.
    + rewrite bool_decide_eq_true_2 by done. simpl.
      destruct (decide (bill_userId b = userId)) as [Hu|Hu].
      * by rewrite bool_decide_eq_true_2.
      * rewrite bool_decide_eq_false_2 by done.
        apply find_all_false, Forall_forall. intros y Hy.
        rewrite bool_decide_eq_false_2; [done|].
        intros Heq. apply Hx. rewrite <- Heq. by apply list_elem_of_fmap_2.
    + rewrite bool_decide_eq_false_2; [by apply IH|].
      intros Heq. apply Hx. rewrite Heq. by apply list_elem_of_fmap_2.
Qed.


Lemma Bill_findOne_number_elem b w :
  b ∈ bills w → NoDup (bill_billNumber <$> bills w) →
  Bill_findOne_number (bill_billNumber b) w = Some b.
Proof.
  unfold Bill_findOne_number. induction (bills w) as [|x l IH]; intros Hin Hnd.
  - by apply elem_of_nil in Hin.
  - rewrite fmap_cons in Hnd. apply NoDup_cons in Hnd as [Hx Hnd].
    apply elem_of_cons in Hin as [<-|Hin]; simpl.
    + by rewrite bool_decide_eq_true_2.
    + rewrite bool_decide_eq_false_2; [by apply IH|].
      intros Heq. apply Hx. rewrite Heq. by apply list_elem_of_fmap_2.
Qed.

Lemma filter_all {A} (P : A → Prop) `{!∀ x, Decision (P x)} (l : list A) :
  Forall P l → filter P l = l.
Proof.
  induction 1 as [|x l Hx Hl IH]; [done|].
  by rewrite filter_cons, decide_True, IH.
Qed.

Lemma remove_bill_filter id l :
  NoDup (bill_id <$> l) → remove_bill id l = filter (λ x, bill_id x ≠ id) l.
Proof.
  induction l as [|x l IH]; intros Hnd; [done|].
  rewrite fmap_cons in Hnd. apply NoDup_cons in Hnd as [Hx Hnd].
  simpl. rewrite filter_cons. case_bool_decide as E.
  - rewrite decide_False by (by intros ?). subst id.
    symmetry. apply filter_all, Forall_forall. intros y Hy Heq.
    apply Hx. rewrite <- Heq. by apply list_elem_of_fmap_2.
  - rewrite decide_True by done. by rewrite IH.
Qed.

Lemma replace_bill_same b l :
  b ∈ l → NoDup (bill_id <$> l) → replace_bill b l = l.
Proof.
  unfold replace_bill. induction l as [|x l IH]; intros Hin Hnd; [done|].
  rewrite fmap_cons in Hnd. apply NoDup_cons in Hnd as [Hx Hnd].
  simpl. apply elem_of_cons in Hin as [<-|Hin].
  - rewrite bool_decide_eq_true_2 by done. f_equal.
    clear IH Hnd. induction l as [|y l IH]; [done|].
    rewrite fmap_cons, not_elem_of_cons in Hx. destruct Hx as [Hy Hl].
    simpl. rewrite bool_decide_eq_false_2 by done. by rewrite IH.
  - rewrite IH by done. case_bool_decide as E; [|done].
    exfalso. apply Hx. rewrite E. by apply list_elem_of_fmap_2.
Qed.

(** X10. A bill that belongs to another user cannot be read, updated or
    deleted through the routes by id: each answers 404 and leaves the
    stored state as it was. The search by bill number takes no user and
    returns that bill to anyone who knows its number. *)
Theorem foreign_bill_is_hidden_except_by_number b userId notes w :
  b ∈ bills w → bill_userId b ≠ userId → bills_indexed w →
  get_bill (bill_id b) userId w = (BError 404 "Bill not found", w)
  ∧ put_bill (bill_id b) userId notes w = (BError 404 "Bill not found", w)
  ∧ delete_bill (bill_id b) userId w = (BError 404 "Bill not found", w)
  ∧ get_bill_by_number (bill_billNumber b) w = (BBill b, w).
Proof.
  intros Hin Hu [Hids Hnums].
  pose proof (Bill_findOne_owned_elem b userId w Hin Hids) as Hfind.
  rewrite decide_False in Hfind by done.
  unfold get_bill, put_bill, delete_bill, get_bill_by_number, bills_route,
    mbind, Handler_bind, gets.
  rewrite Hfind, (Bill_findOne_number_elem b w Hin Hnums). done.
Qed.

Lemma foreign_bill_is_hidden_except_by_number_witness :
  get_bill 2%nat 8%nat Sample.shop_after_sale
  = (BError 404 "Bill not found", Sample.shop_after_sale)
  ∧ get_bill_by_number "BILL-1000" Sample.shop_after_sale
    = (BBill Sample.sale_bill, Sample.shop_after_sale).
Proof.
  assert (Sample.sale_bill ∈ bills Sample.shop_after_sale) as Hin
    by apply list_elem_of_here.
  assert (bill_userId Sample.sale_bill ≠ 8%nat) as Hu by (simpl; lia).
  assert (bills_indexed Sample.shop_after_sale) as Hidx.
  { split; simpl; apply NoDup_singleton. }
  destruct (foreign_bill_is_hidden_except_by_number Sample.sale_bill 8%nat None
              Sample.shop_after_sale Hin Hu Hidx) as (H1 & _ & _ & H2).
  split; [exact H1 | exact H2].
Defined.

Lemma delete_bill_owned b w :
  b ∈ bills w → NoDup (bill_id <$> bills w) →
  delete_bill (bill_id b) (bill_userId b) w = (BDeleted, without_bill b w).
Proof.
  intros Hin Hids.
  pose proof (Bill_findOne_owned_elem b (bill_userId b) w Hin Hids) as Hfind.
  rewrite decide_True in Hfind by done.
  unfold delete_bill, bills_route, mbind, Handler_bind, gets. rewrite Hfind.
  unfold modify, lift. simpl. unfold without_bill.
  by rewrite remove_bill_filter.
Qed.

(** X11. The owner's DELETE /api/bills/:id removes that bill and nothing
    else: inventories, products and the cache are as before (the stock is
    not put back), a later read of the bill answers 404, and every other
    bill is still read by its owner as it was stored. *)
Theorem delete_bill_removes_only_that_bill b w :
  b ∈ bills w → NoDup (bill_id <$> bills w) →
  delete_bill (bill_id b) (bill_userId b) w = (BDeleted, without_bill b w)
  ∧ inventories (without_bill b w) = inventories w
  ∧ products (without_bill b w) = products w
  ∧ redis (without_bill b w) = redis w
  ∧ get_bill (bill_id b) (bill_userId b) (without_bill b w)
    = (BError 404 "Bill not found", without_bill b w)
  ∧ ∀ b', b' ∈ bills w → b' ≠ b →
      get_bill (bill_id b') (bill_userId b') (without_bill b w)
      = (BBill b', without_bill b w).
Proof.
  intros Hin Hids.
  split; [by apply delete_bill_owned|].
  split; [done|]. split; [done|]. split; [done|].
  split.
  - unfold get_bill, bills_route, mbind, Handler_bind, gets.
    assert (Bill_findOne_owned (bill_id b) (bill_userId b) (without_bill b w) = None)
      as ->; [|done].
    unfold Bill_findOne_owned, without_bill. simpl.
    apply find_all_false, Forall_forall. intros y [Hy _]%list_elem_of_filter.
    by rewrite bool_decide_eq_false_2.
  - intros b' Hin' Hne.
    assert (bill_id b' ≠ bill_id b) as Hid.
    { intros Heq. apply Hne.
      apply list_elem_of_lookup in Hin as [i Hi]. apply list_elem_of_lookup in Hin' as [j Hj].
      assert (i = j) as ->; [|congruence].
      eapply NoDup_lookup; [exact Hids| |].
      - by rewrite list_lookup_fmap, Hi.
      - rewrite list_lookup_fmap, Hj. simpl. by rewrite Heq. }
    unfold get_bill, bills_route, mbind, Handler_bind, gets.
    rewrite (Bill_findOne_owned_elem b' (bill_userId b') (without_bill b w)).
    + by rewrite decide_True.
    + unfold without_bill. simpl. by apply list_elem_of_filter.
    + unfold without_bill. simpl.
      eapply sublist_NoDup; [exact Hids|]. apply fmap_sublist, sublist_filter.
Qed.

Lemma delete_bill_removes_only_that_bill_witness :
  delete_bill 2%nat 7%nat Sample.shop_after_sale
  = (BDeleted, without_bill Sample.sale_bill Sample.shop_after_sale).
Proof.
  assert (Sample.sale_bill ∈ bills Sample.shop_after_sale) as Hin
    by apply list_elem_of_here.
  assert (NoDup (bill_id <$> bills Sample.shop_after_sale)) as Hids
    by (simpl; apply NoDup_singleton).
  exact (proj1 (delete_bill_removes_only_that_bill Sample.sale_bill
                  Sample.shop_after_sale Hin Hids)).
Defined.

(** X12. The owner's PUT /api/bills/:id changes the notes of that bill and
    nothing else, and the bill is then read back with the new notes; the
    amounts, the items and the payment fields are as before. Notes that are
    missing or empty change nothing, so a note cannot be cleared. *)
Theorem put_bill_changes_notes_only b notes w :
  b ∈ bills w → NoDup (bill_id <$> bills w) →
  put_bill (bill_id b) (bill_userId b) notes w
  = (BUpdated (noted notes b), set_bills (replace_bill (noted notes b) (bills w)) w)
  ∧ get_bill (bill_id b) (bill_userId b)
      (set_bills (replace_bill (noted notes b) (bills w)) w)
    = (BBill (noted notes b), set_bills (replace_bill (noted notes b) (bills w)) w)
  ∧ bill_set_notes (bill_notes b) (noted notes b) = b
  ∧ bill_notes (noted notes b) = (if Js.truthy_str notes then notes else bill_notes b)
  ∧ (Js.truthy_str notes = false →
     put_bill (bill_id b) (bill_userId b) notes w = (BUpdated b, w)).
Proof.
  intros Hin Hids.
  pose proof (Bill_findOne_owned_elem b (bill_userId b) w Hin Hids) as Hfind.
  rewrite decide_True in Hfind by done.
  assert (put_bill (bill_id b) (bill_userId b) notes w
          = (BUpdated (noted notes b),
             set_bills (replace_bill (noted notes b) (bills w)) w)) as Hput.
  { unfold put_bill, bills_route, mbind, Handler_bind, gets. rewrite Hfind.
    unfold modify, lift. cbv zeta. fold (noted notes b). reflexivity. }
  split; [exact Hput|].
  split.
  { unfold get_bill, bills_route, mbind, Handler_bind, gets.
    assert (Bill_findOne_owned (bill_id b) (bill_userId b)
              (set_bills (replace_bill (noted notes b) (bills w)) w)
            = Some (noted notes b)) as ->; [|done].
    unfold Bill_findOne_owned in *. simpl.
    assert (bill_id (noted notes b) = bill_id b) as Hid
      by (unfold noted; by destruct (Js.truthy_str notes)).
    assert (bill_userId (noted notes b) = bill_userId b) as Hu
      by (unfold noted; by destruct (Js.truthy_str notes)).
    unfold replace_bill. rewrite Hid. revert Hfind. clear -Hid Hu.
    induction (bills w) as [|x l IH]; [done|]. simpl.
    destruct (bool_decide (bill_id x = bill_id b)) eqn:E; simpl.
    - intros _. rewrite Hid, Hu. by rewrite !bool_decide_eq_true_2.
    - rewrite E. simpl. exact IH. }
  split; [unfold noted; destruct (Js.truthy_str notes); by destruct b|].
  split; [unfold noted; by destruct (Js.truthy_str notes)|].
  intros Hfalsy. rewrite Hput. unfold noted. rewrite Hfalsy.
  rewrite replace_bill_same by done. by destruct w.
Qed.

Lemma put_bill_changes_notes_only_witness :
  put_bill 2%nat 7%nat (Some "") Sample.shop_after_sale
  = (BUpdated Sample.sale_bill, Sample.shop_after_sale).
Proof.
  assert (Sample.sale_bill ∈ bills Sample.shop_after_sale) as Hin
    by apply list_elem_of_here.
  assert (NoDup (bill_id <$> bills Sample.shop_after_sale)) as Hids
    by (simpl; apply NoDup_singleton).
  exact (proj2 (proj2 (proj2 (proj2
    (put_bill_changes_notes_only Sample.sale_bill (Some "") Sample.shop_after_sale
       Hin Hids)))) eq_refl).
Defined.

(** ** Requests that are turned down *)









(** ** The full update of an inventory document *)









(** ** The summary of a user's bills *)

Lemma breakdown_count bills m :
  from_option bd_count 0%nat
    (paymentMethodBreakdown (billService.calculateBillStats bills) !! m)
  = length (paid_by m bills).
Proof.
  unfold billService.calculateBillStats. cbn [paymentMethodBreakdown].
  rewrite tally_fold, lookup_empty.
  by destruct (paid_by m bills) as [|b bs].
Qed.

Lemma paid_by_partition bills :
  length bills
  = (length (paid_by Cash bills) + (length (paid_by Card bills)
     + (length (paid_by UPI bills) + (length (paid_by Check bills) + 0))))%nat.
Proof.
  unfold paid_by. induction bills as [|b bills IH]; [done|].
  rewrite !filter_cons.
  destruct (bill_paymentMethod b) eqn:E; simpl;
    repeat (rewrite decide_True by done || rewrite decide_False by done); simpl; lia.
Qed.

(** X15. [GET /api/bills/summary] without a date range answers with the
    statistics of the bills of the authenticated user only and changes
    nothing; a bill of another user does not move them. In the statistics
    the counts of the per-method breakdown add up to totalBills, which is
    the number of the user's bills. *)
Theorem summary_is_per_user_and_adds_up userId w :
  get_summary userId w
  = (BStats (billService.calculateBillStats (Bill_find_userId userId w)), w)
  ∧ totalBills (billService.calculateBillStats (Bill_find_userId userId w))
    = length (Bill_find_userId userId w)
  ∧ breakdown_bills (billService.calculateBillStats (Bill_find_userId userId w))
    = totalBills (billService.calculateBillStats (Bill_find_userId userId w))
  ∧ ∀ b, bill_userId b ≠ userId →
      (get_summary userId (set_bills (bills w ++ [b]) w)).1 = (get_summary userId w).1.
Proof.
  split; [reflexivity|]. split; [reflexivity|].
  set (l := Bill_find_userId userId w).
  split.
  - unfold breakdown_bills, PaymentMethod_all. cbn [foldr].
    rewrite !breakdown_count. by rewrite <- paid_by_partition.
  - intros b Hb.
    assert (Bill_find_userId userId (set_bills (bills w ++ [b]) w)
            = Bill_find_userId userId w) as Heq.
    { unfold Bill_find_userId. cbn [bills set_bills].
      rewrite filter_app, filter_cons, decide_False by done. by rewrite app_nil_r. }
    unfold get_summary, bills_route, mbind, Handler_bind, gets, mret, Handler_ret.
    cbn [fst]. by rewrite Heq.
Qed.

(** ** Registration of a barcode that is already known *)







